(** * iobeam command-line client: the trigger commands

    A shallow embedding of [command/triggers.go]: the trigger and action
    records, their validity predicates, the action-kind registry
    ([getActionArgs] / [getActionType]) and the request sequences of
    [_getTrigger], [deleteTrigger], [_putTrigger], [delAction], [addAction]
    and [createTrigger], followed by the properties the specification states
    about them.

    Conventions.
    - A Go [uint64] is a [Z] in [0, 2^64); arithmetic that can leave the range
      is written with its wrap-around ([U64.sub], [U64.add]).
    - A Go [string] is a [string]; [len(s) > 0] is [0 <? len_string s].
    - A Go slice is a [list]; slice expressions that the runtime checks are
      partial ([slice_to], [slice_from]) and a failed check is a [Panic].
    - The HTTP client is an external collaborator: it is a parameter
      ([Execute]) that answers each request and may keep state of its own. *)

From Stdlib Require Import ZArith Lia DecimalString.
From stdpp Require Import base tactics option list strings gmap.

Local Open Scope string_scope.
Local Open Scope list_scope.
Local Open Scope Z_scope.

(** ** Machine integers *)

Module U64.
Definition modulus : Z := 2 ^ 64.

Definition wrap (z : Z) : Z := z mod modulus.

Definition add (a b : Z) : Z := wrap (a + b).
Definition sub (a b : Z) : Z := wrap (a - b).

(** The values a [uint64] variable can hold. *)
Definition in_range (z : Z) : Prop := 0 <= z < modulus.

End U64.

(** Go's [int] on a 64-bit target: the type of [len]. *)
Module Int.
Definition max : Z := 2 ^ 63 - 1.
End Int.

(** [len(s)] for a string (a count of bytes) and for a slice. *)
Definition len_string (s : string) : Z := Z.of_nat (String.length s).
Definition len {A} (s : list A) : Z := Z.of_nat (length s).

(** A slice that exists at run time has a length that fits [int]. *)
Definition representable {A} (s : list A) : Prop := len s <= Int.max.

(** [strconv.FormatUint(n, 10)], also what [%d] prints for a [uint64]. *)
Definition FormatUint (n : Z) : string :=
  NilZero.string_of_uint (N.to_uint (Z.to_N n)).

(** ** Results of partial operations

    A Go function either returns or panics; [result] keeps the two apart. *)

Inductive result (A : Type) : Type :=
| Ret (a : A)
| Panic (msg : string).
Arguments Ret {A} a.
Arguments Panic {A} msg.

(** ** Slice expressions

    [s[:hi]] is checked against the capacity and [s[lo:]] against the
    length.  The model takes the capacity to be the length: every [s[:hi]] in
    this file is guarded by [hi <= len(s)], where the two checks agree. *)

Definition msgSliceBounds : string := "runtime error: slice bounds out of range".

Definition slice_to {A} (s : list A) (hi : Z) : result (list A) :=
  if (0 <=? hi) && (hi <=? len s) then Ret (take (Z.to_nat hi) s)
  else Panic msgSliceBounds.

Definition slice_from {A} (s : list A) (lo : Z) : result (list A) :=
  if (0 <=? lo) && (lo <=? len s) then Ret (drop (Z.to_nat lo) s)
  else Panic msgSliceBounds.

(** ** Action data, one record per action kind

    Each Go struct is a module holding the record [t] and its methods.
    [setFlags] binds one command-line flag to each field it names, which
    stores the flag's default in the field; [parseFlag name value] is what
    parsing [-name value] then does to the record ([None] for a flag that was
    not defined). *)

Module httpActionData.
Record t := mk {
  URL : string;
  Payload : string;
  AuthHeader : string;
  ContentType : string }.

Definition zero : t := mk "" "" "" "".

Definition Valid (d : t) : bool :=
  (0 <? len_string (URL d)) && (0 <? len_string (ContentType d)).

Definition setFlags (d : t) : t := mk "" "" "" "text/plain".

Definition parseFlag (name value : string) (d : t) : option t :=
  if String.eqb name "url" then Some (mk value (Payload d) (AuthHeader d) (ContentType d))
  else if String.eqb name "payload" then Some (mk (URL d) value (AuthHeader d) (ContentType d))
  else if String.eqb name "authHeader" then Some (mk (URL d) (Payload d) value (ContentType d))
  else if String.eqb name "contentType" then Some (mk (URL d) (Payload d) (AuthHeader d) value)
  else None.
End httpActionData.

Module mqttActionData.
Record t := mk {
  Broker : string;
  Username : string;
  Password : string;
  QoS : Z;
  Topic : string;
  Payload : string }.

Definition zero : t := mk "" "" "" 0 "" "".

Definition Valid (d : t) : bool :=
  (0 <? len_string (Broker d)) && (0 <? len_string (Topic d))
  && (0 <? len_string (Payload d)).

(** No flag is bound to [QoS]. *)
Definition setFlags (d : t) : t := mk "" "" "" (QoS d) "" "".

Definition parseFlag (name value : string) (d : t) : option t :=
  if String.eqb name "broker" then
    Some (mk value (Username d) (Password d) (QoS d) (Topic d) (Payload d))
  else if String.eqb name "username" then
    Some (mk (Broker d) value (Password d) (QoS d) (Topic d) (Payload d))
  else if String.eqb name "password" then
    Some (mk (Broker d) (Username d) value (QoS d) (Topic d) (Payload d))
  else if String.eqb name "topic" then
    Some (mk (Broker d) (Username d) (Password d) (QoS d) value (Payload d))
  else if String.eqb name "payload" then
    Some (mk (Broker d) (Username d) (Password d) (QoS d) (Topic d) value)
  else None.
End mqttActionData.

Module smsActionData.
Record t := mk {
  AccountSID : string;
  AuthToken : string;
  From : string;
  To : string;
  Payload : string }.

Definition zero : t := mk "" "" "" "" "".

Definition Valid (d : t) : bool :=
  (0 <? len_string (AccountSID d)) && (0 <? len_string (AuthToken d))
  && (0 <? len_string (From d)) && (0 <? len_string (To d))
  && (0 <? len_string (Payload d)).

Definition setFlags (d : t) : t := mk "" "" "" "" "".

Definition parseFlag (name value : string) (d : t) : option t :=
  if String.eqb name "accountSid" then
    Some (mk value (AuthToken d) (From d) (To d) (Payload d))
  else if String.eqb name "authToken" then
    Some (mk (AccountSID d) value (From d) (To d) (Payload d))
  else if String.eqb name "from" then
    Some (mk (AccountSID d) (AuthToken d) value (To d) (Payload d))
  else if String.eqb name "to" then
    Some (mk (AccountSID d) (AuthToken d) (From d) value (Payload d))
  else if String.eqb name "payload" then
    Some (mk (AccountSID d) (AuthToken d) (From d) (To d) value)
  else None.
End smsActionData.

Module emailActionData.
Record t := mk {
  To : list string;
  Subject : string;
  Payload : string }.

(** [len(d.To)] is the length of the recipient slice, not of a string. *)
Definition Valid (d : t) : bool :=
  (0 <? len (To d)) && (0 <? len_string (Payload d)).

Definition msgIndexRange : string := "runtime error: index out of range".

(** [d.To[0]], the element the [-to] flag is bound to. *)
Definition To0 (d : t) : result string :=
  match To d with
  | r :: _ => Ret r
  | [] => Panic msgIndexRange
  end.

(** [&d.To[0]] needs the slice to have an element. *)
Definition setFlags (d : t) : result t :=
  match To d with
  | _ :: rest => Ret (mk ("" :: rest) "" "")
  | [] => Panic msgIndexRange
  end.

Definition parseFlag (name value : string) (d : t) : option t :=
  if String.eqb name "to" then
    match To d with
    | _ :: rest => Some (mk (value :: rest) (Subject d) (Payload d))
    | [] => None
    end
  else if String.eqb name "subject" then Some (mk (To d) value (Payload d))
  else if String.eqb name "payload" then Some (mk (To d) (Subject d) value)
  else None.
End emailActionData.

(** The interface [actionArgs] has the method set [{Valid, setFlags}]. *)
Class ActionArgs (A : Type) := {
  Valid : A -> bool;
  setFlags : A -> result A }.

#[export] Instance http_ActionArgs : ActionArgs httpActionData.t :=
  {| Valid := httpActionData.Valid;
     setFlags := fun d => Ret (httpActionData.setFlags d) |}.
#[export] Instance mqtt_ActionArgs : ActionArgs mqttActionData.t :=
  {| Valid := mqttActionData.Valid;
     setFlags := fun d => Ret (mqttActionData.setFlags d) |}.
#[export] Instance sms_ActionArgs : ActionArgs smsActionData.t :=
  {| Valid := smsActionData.Valid;
     setFlags := fun d => Ret (smsActionData.setFlags d) |}.
#[export] Instance email_ActionArgs : ActionArgs emailActionData.t :=
  {| Valid := emailActionData.Valid;
     setFlags := emailActionData.setFlags |}.

(** A value of interface type [actionArgs]: its dynamic type and the data
    behind the pointer.  The four pointer types of this file are the cases a
    type switch can name; [OtherArgs] stands for a value of any other dynamic
    type with that method set (it records the type's name and what its
    [Valid] answers) and [NilArgs] for the nil interface. *)
Inductive actionArgs : Type :=
| EmailArgs (d : emailActionData.t)
| HttpArgs (d : httpActionData.t)
| MqttArgs (d : mqttActionData.t)
| SmsArgs (d : smsActionData.t)
| OtherArgs (dynType : string) (valid : bool)
| NilArgs.

Definition msgNilDeref : string :=
  "runtime error: invalid memory address or nil pointer dereference".

(** [a.Valid()] through the interface. *)
Definition actionArgs_Valid (a : actionArgs) : result bool :=
  match a with
  | EmailArgs d => Ret (Valid d)
  | HttpArgs d => Ret (Valid d)
  | MqttArgs d => Ret (Valid d)
  | SmsArgs d => Ret (Valid d)
  | OtherArgs _ v => Ret v
  | NilArgs => Panic msgNilDeref
  end.

(** ** The action registry *)

(** [actionTypes]: action kind to the text used in usage strings. *)
Definition actionTypes : gmap string string :=
  <["email" := "email"]> (<["http" := "HTTP"]> (<["mqtt" := "MQTT"]>
    (<["sms" := "Twilio SMS"]> ∅))).

(** The action kinds of the command tree: the keys of [actionTypes]. *)
Definition actionKinds : list string := ["email"; "http"; "mqtt"; "sms"].

Definition msgUnknownAction : string := "Unknown action type".

Definition getActionArgs (action : string) : result actionArgs :=
  if String.eqb action "email" then
    Ret (EmailArgs (emailActionData.mk [""] "" ""))
  else if String.eqb action "http" then Ret (HttpArgs httpActionData.zero)
  else if String.eqb action "mqtt" then Ret (MqttArgs mqttActionData.zero)
  else if String.eqb action "sms" then Ret (SmsArgs smsActionData.zero)
  else Panic msgUnknownAction.

Definition getActionType (a : actionArgs) : result string :=
  match a with
  | EmailArgs _ => Ret "email"
  | HttpArgs _ => Ret "http"
  | MqttArgs _ => Ret "mqtt"
  | SmsArgs _ => Ret "sms"
  | OtherArgs _ _ | NilArgs => Panic msgUnknownAction
  end.

(** ** Triggers *)

Definition keyTrigger : string := "trigger".

(** [baseApiPath] after [init]: the entry this file registers. *)
Definition baseApiPath : gmap string string := <[keyTrigger := "/v1/triggers"]> ∅.

(** Reading a Go map yields the zero value for a missing key. *)
Definition map_get (m : gmap string string) (k : string) : string :=
  default "" (m !! k).

(** Modelled from the spec: [getUrlForResource] is declared outside the
    trigger file.  The specification gives the id-based resource path as
    [/v1/triggers/{id}], the base path followed by a slash and the id in
    decimal. *)
Definition getUrlForResource (path : string) (id : Z) : string :=
  path +:+ "/" +:+ FormatUint id.

Definition getUrlForTriggerId (id : Z) : string :=
  getUrlForResource (map_get baseApiPath keyTrigger) id.

(** [triggerData]: [ReleaseWhenPtr] is a [*string], [None] being nil. *)
Record triggerData := mkTriggerData {
  TriggerId : Z;
  ProjectId : Z;
  Namespace : string;
  TriggerName : string;
  DataExpiry : Z;
  FireWhen : string;
  ReleaseWhenPtr : option string;
  releaseWhen : string;
  dumpRequest : bool;
  dumpResponse : bool }.

Definition triggerData_IsValid (d : triggerData) : bool :=
  (0 <? ProjectId d) && (0 <? len_string (TriggerName d))
  && (0 <=? DataExpiry d) && (0 <? len_string (FireWhen d)).

(** What an [interface{}] field of a trigger action holds: the action data
    given on the command line, or whatever the JSON decoder built for a
    trigger read from the server (kept as its JSON text). *)
Inductive anyArgs : Type :=
| ArgsOf (a : actionArgs)
| Decoded (json : string).

Record triggerAction := mkTriggerAction {
  Type_ : string;
  MinDelay : Z;
  Args : anyArgs }.

(** [fullTrigger] embeds [triggerData]. *)
Record fullTrigger := mkFullTrigger {
  data : triggerData;
  Actions : list triggerAction }.

Definition zeroTriggerData : triggerData :=
  mkTriggerData 0 0 "" "" 0 "" None "" false false.

(** [new(fullTrigger)] *)
Definition zeroFullTrigger : fullTrigger := mkFullTrigger zeroTriggerData [].

Definition set_Actions (t : fullTrigger) (acts : list triggerAction) : fullTrigger :=
  mkFullTrigger (data t) acts.

(** [newTrigger] copies the actions into a fresh slice. *)
Definition newTrigger (name : string) (projectId dataExpiry : Z) (fireWhen : string)
    (releaseWhen : option string) (namespace : string)
    (actions : list triggerAction) : fullTrigger :=
  mkFullTrigger
    (mkTriggerData 0 projectId namespace name dataExpiry fireWhen releaseWhen
       "" false false)
    actions.

(** *** Wire form of the trigger fields

    The JSON object members that the struct tags of [triggerData] produce, in
    field order: a member tagged [omitempty] is left out when the field is
    zero (a nil pointer for [release_when]); unexported fields have no
    member. *)
Inductive jsonValue : Type :=
| JNumber (n : Z)
| JString (s : string).

Definition triggerData_wire (d : triggerData) : list (string * jsonValue) :=
  (if TriggerId d =? 0 then [] else [("trigger_id", JNumber (TriggerId d))])
  ++ [("project_id", JNumber (ProjectId d));
      ("namespace", JString (Namespace d));
      ("trigger_name", JString (TriggerName d))]
  ++ (if DataExpiry d =? 0 then [] else [("data_expiry", JNumber (DataExpiry d))])
  ++ [("fire_when", JString (FireWhen d))]
  ++ match ReleaseWhenPtr d with
     | Some s => [("release_when", JString s)]
     | None => []
     end.

(** The member of a wire object with a given name, if any. *)
Definition wire_member (k : string) (o : list (string * jsonValue)) : option jsonValue :=
  snd <$> List.find (fun kv => String.eqb (fst kv) k) o.

(** ** Command arguments *)

Record triggerBaseArgs := mkTriggerBaseArgs {
  projectId : Z;
  triggerId : Z;
  triggerName : string }.

Definition triggerBaseArgs_IsValid (a : triggerBaseArgs) : bool :=
  (0 <? projectId a) && ((0 <? triggerId a) || (0 <? len_string (triggerName a))).

Definition getApiPath (a : triggerBaseArgs) : string :=
  if 0 <? triggerId a then getUrlForTriggerId (triggerId a)
  else map_get baseApiPath keyTrigger.

Record triggerRemoveActionArgs := mkTriggerRemoveActionArgs {
  rm_base : triggerBaseArgs;
  index : Z }.

Definition triggerRemoveActionArgs_IsValid (a : triggerRemoveActionArgs) : bool :=
  triggerBaseArgs_IsValid (rm_base a) && (0 <? index a).

Record createArgs := mkCreateArgs {
  cr_triggerData : triggerData;
  cr_minDelay : Z;
  cr_data : actionArgs }.

Record addActionArgs := mkAddActionArgs {
  add_base : triggerBaseArgs;
  add_minDelay : Z;
  add_data : actionArgs }.

(** [&&] evaluates its right operand only when the left one is true. *)
Definition createArgs_IsValid (a : createArgs) : result bool :=
  if triggerData_IsValid (cr_triggerData a) && (0 <=? cr_minDelay a)
  then actionArgs_Valid (cr_data a) else Ret false.

Definition addActionArgs_IsValid (a : addActionArgs) : result bool :=
  if triggerBaseArgs_IsValid (add_base a) && (0 <=? add_minDelay a)
  then actionArgs_Valid (add_data a) else Ret false.

(** ** The HTTP client

    A request as the builder calls of the client library leave it.  Each
    builder call updates the request it is applied to. *)

Inductive method : Type := GET | POST | PUT | DELETE.

Record request := mkRequest {
  req_method : method;
  req_path : string;
  req_params : list (string * string);
  req_expect : option Z;
  req_projectToken : option Z;
  req_dumpRequest : bool;
  req_dumpResponse : bool;
  req_body : option fullTrigger;
  req_responseBody : bool;
  req_handler : bool }.

Definition newRequest (m : method) (path : string) : request :=
  mkRequest m path [] None None false false None false false.

Definition Client_Get : string -> request := newRequest GET.
Definition Client_Post : string -> request := newRequest POST.
Definition Client_Put : string -> request := newRequest PUT.
Definition Client_Delete : string -> request := newRequest DELETE.

Definition Param (k v : string) (r : request) : request :=
  mkRequest (req_method r) (req_path r) (req_params r ++ [(k, v)]) (req_expect r)
    (req_projectToken r) (req_dumpRequest r) (req_dumpResponse r) (req_body r)
    (req_responseBody r) (req_handler r).

Definition Expect (status : Z) (r : request) : request :=
  mkRequest (req_method r) (req_path r) (req_params r) (Some status)
    (req_projectToken r) (req_dumpRequest r) (req_dumpResponse r) (req_body r)
    (req_responseBody r) (req_handler r).

(** [ProjectToken(ctx.Profile, id)]: the profile is the context's own. *)
Definition ProjectToken (id : Z) (r : request) : request :=
  mkRequest (req_method r) (req_path r) (req_params r) (req_expect r)
    (Some id) (req_dumpRequest r) (req_dumpResponse r) (req_body r)
    (req_responseBody r) (req_handler r).

Definition DumpRequest (b : bool) (r : request) : request :=
  mkRequest (req_method r) (req_path r) (req_params r) (req_expect r)
    (req_projectToken r) b (req_dumpResponse r) (req_body r)
    (req_responseBody r) (req_handler r).

Definition DumpResponse (b : bool) (r : request) : request :=
  mkRequest (req_method r) (req_path r) (req_params r) (req_expect r)
    (req_projectToken r) (req_dumpRequest r) b (req_body r)
    (req_responseBody r) (req_handler r).

Definition Body (t : fullTrigger) (r : request) : request :=
  mkRequest (req_method r) (req_path r) (req_params r) (req_expect r)
    (req_projectToken r) (req_dumpRequest r) (req_dumpResponse r) (Some t)
    (req_responseBody r) (req_handler r).

Definition ResponseBody (r : request) : request :=
  mkRequest (req_method r) (req_path r) (req_params r) (req_expect r)
    (req_projectToken r) (req_dumpRequest r) (req_dumpResponse r) (req_body r)
    true (req_handler r).

Definition ResponseBodyHandler (r : request) : request :=
  mkRequest (req_method r) (req_path r) (req_params r) (req_expect r)
    (req_projectToken r) (req_dumpRequest r) (req_dumpResponse r) (req_body r)
    (req_responseBody r) true.

(** What [Execute] leaves behind: [resp_decoded] is the trigger the client
    decoded into the [ResponseBody] target and passed to the handler ([None]
    when it decoded nothing), [resp_err] its error ([None] being nil). *)
Record response := mkResponse {
  resp_decoded : option fullTrigger;
  resp_err : option string }.

(** Go's [error] values met in this file. *)
Inductive error : Type :=
| ClientError (msg : string)
| InvalidActionIndex (index lenActions : Z).

(** The text of an error; for [InvalidActionIndex] it is
    [fmt.Errorf("Invalid action index: %d (only %d actions)", ...)]. *)
Definition Error (e : error) : string :=
  match e with
  | ClientError msg => msg
  | InvalidActionIndex i n =>
      "Invalid action index: " +:+ FormatUint i +:+ " (only "
        +:+ FormatUint n +:+ " actions)"
  end.

(** A command with its typed argument record. *)
Record Command (D : Type) := mkCommand {
  ApiPath : string;
  Data : D }.
Arguments mkCommand {D} ApiPath Data.
Arguments ApiPath {D} c.
Arguments Data {D} c.

(** ** The command actions *)

Section Client.

(** The client and whatever stands behind it: a state [W] and the answer
    to each executed request. *)
Variable W : Type.
Variable Execute : request -> W -> response * W.

(** What a command action can change: the client's state, the requests
    sent so far (oldest first) and the lines printed. *)
Record state := mkState {
  world : W;
  sent : list request;
  stdout : list string }.

Definition M (A : Type) : Type := state -> result A * state.

Definition ret {A} (a : A) : M A := fun s => (Ret a, s).

Definition bind {A B} (m : M A) (k : A -> M B) : M B :=
  fun s =>
    match m s with
    | (Ret a, s') => k a s'
    | (Panic msg, s') => (Panic msg, s')
    end.

Definition lift {A} (r : result A) : M A := fun s => (r, s).

Definition execute (r : request) : M response :=
  fun s =>
    let '(resp, w) := Execute r (world s) in
    (Ret resp, mkState w (sent s ++ [r]) (stdout s)).

Definition Println (line : string) : M unit :=
  fun s => (Ret tt, mkState (world s) (sent s) (stdout s ++ [line])).

Definition asError (e : option string) : option error := ClientError <$> e.

Local Notation "x <~ m ;; k" := (bind m (fun x => k))
  (at level 20, m at level 99, k at level 200, only parsing).
Local Notation "' p <~ m ;; k" := (bind m (fun p => k))
  (at level 20, p pattern, m at level 99, k at level 200, only parsing).

Definition _getTrigger (args : triggerBaseArgs) : M (fullTrigger * option error) :=
  let req := Client_Get (getApiPath args) in
  let req := if triggerId args <=? 0 then Param "name" (triggerName args) req else req in
  resp <~ execute
    (ResponseBodyHandler (ResponseBody (ProjectToken (projectId args) (Expect 200 req))));;
  ret (default zeroFullTrigger (resp_decoded resp), asError (resp_err resp)).

(** [triggerDeleteArgs] (like [triggerGetArgs]) only embeds
    [triggerBaseArgs], so the command carries the base arguments. *)
Definition deleteTrigger (c : Command triggerBaseArgs) : M (option error) :=
  let args := Data c in
  let req := Client_Delete (getApiPath args) in
  let req := if triggerId args <=? 0 then Param "name" (triggerName args) req else req in
  resp <~ execute (ProjectToken (projectId args) (Expect 204 req));;
  let err := asError (resp_err resp) in
  _ <~ (if err is None then Println "Device successfully deleted" else ret tt);;
  ret err.

Definition _putTrigger (trigger : fullTrigger) : M (option error) :=
  resp <~ execute
    (Body trigger
       (ProjectToken (ProjectId (data trigger))
          (Expect 200 (Client_Put (getUrlForTriggerId (TriggerId (data trigger)))))));;
  ret (asError (resp_err resp)).

Definition delAction (c : Command triggerRemoveActionArgs) : M (option error) :=
  let args := Data c in
  '(trigger, err) <~ _getTrigger (rm_base args);;
  match err with
  | Some e => ret (Some e)
  | None =>
      let idx := U64.sub (index args) 1 in
      let lenActions := U64.wrap (len (Actions trigger)) in
      if idx >? lenActions then
        ret (Some (InvalidActionIndex (index args) lenActions))
      else
        head <~ lift (slice_to (Actions trigger) idx);;
        tail <~ lift (slice_from (Actions trigger) (U64.add idx 1));;
        let trigger := set_Actions trigger (head ++ tail) in
        err <~ _putTrigger trigger;;
        _ <~ (if err is None then Println "Action successfully removed from trigger."
              else ret tt);;
        ret err
  end.

Definition addAction (c : Command addActionArgs) : M (option error) :=
  let args := Data c in
  '(trigger, err) <~ _getTrigger (add_base args);;
  match err with
  | Some e => ret (Some e)
  | None =>
      ty <~ lift (getActionType (add_data args));;
      let newAction := mkTriggerAction ty (add_minDelay args) (ArgsOf (add_data args)) in
      let trigger := set_Actions trigger (Actions trigger ++ [newAction]) in
      err <~ _putTrigger trigger;;
      _ <~ (if err is None then Println "Action successfully added to trigger."
            else ret tt);;
      ret err
  end.

Definition createTrigger (c : Command createArgs) : M (option error) :=
  let args := Data c in
  let td := cr_triggerData args in
  ty <~ lift (getActionType (cr_data args));;
  let actions := [mkTriggerAction ty (cr_minDelay args) (ArgsOf (cr_data args))] in
  let releasePtr :=
    if 0 <? len_string (releaseWhen td) then Some (releaseWhen td) else None in
  let body := newTrigger (TriggerName td) (ProjectId td) (DataExpiry td) (FireWhen td)
                releasePtr (Namespace td) actions in
  resp <~ execute
    (ResponseBodyHandler (ResponseBody (Body body
       (DumpResponse (dumpResponse td) (DumpRequest (dumpRequest td)
          (ProjectToken (ProjectId (data body)) (Expect 201 (Client_Post (ApiPath c)))))))));;
  _ <~ match resp_decoded resp with
       | Some t =>
           Println ("Trigger '" +:+ TriggerName (data t) +:+ "' created with ID: "
                      +:+ FormatUint (TriggerId (data t)))
       | None => ret tt
       end;;
  ret (asError (resp_err resp)).

End Client.

Arguments world {W} s.
Arguments sent {W} s.
Arguments stdout {W} s.
Arguments mkState {W} world sent stdout.
Arguments _getTrigger {W} Execute args s.
Arguments _putTrigger {W} Execute trigger s.
Arguments deleteTrigger {W} Execute c s.
Arguments delAction {W} Execute c s.
Arguments addAction {W} Execute c s.
Arguments createTrigger {W} Execute c s.

(** ** A small server to run the actions against

    It stores at most one trigger: a read returns it, a replace or a create
    stores the body it is sent (a create assigns id 7), a delete drops it. *)

Module Fixture.

Definition store : Type := option fullTrigger.

Definition assignId (id : Z) (t : fullTrigger) : fullTrigger :=
  let d := data t in
  mkFullTrigger
    (mkTriggerData id (ProjectId d) (Namespace d) (TriggerName d) (DataExpiry d)
       (FireWhen d) (ReleaseWhenPtr d) (releaseWhen d) (dumpRequest d) (dumpResponse d))
    (Actions t).

Definition Execute (r : request) (w : store) : response * store :=
  match req_method r, w, req_body r with
  | GET, Some t, _ => (mkResponse (Some t) None, w)
  | GET, None, _ => (mkResponse None (Some "404 Not Found"), w)
  | PUT, Some _, Some t => (mkResponse None None, Some t)
  | PUT, _, _ => (mkResponse None (Some "400 Bad Request"), w)
  | POST, _, Some t => (mkResponse (Some (assignId 7 t)) None, Some (assignId 7 t))
  | POST, _, None => (mkResponse None (Some "400 Bad Request"), w)
  | DELETE, Some _, _ => (mkResponse None None, None)
  | DELETE, None, _ => (mkResponse None (Some "404 Not Found"), w)
  end.

Definition action (n : Z) : triggerAction :=
  mkTriggerAction "http" n (Decoded "{}").

(** Trigger 5 of project 1, with three actions told apart by their delay. *)
Definition trigger3 : fullTrigger :=
  mkFullTrigger
    (mkTriggerData 5 1 "input" "t1" 0 "{{temp}}>25" None "" false false)
    [action 10; action 20; action 30].

Definition start : state store := mkState (Some trigger3) [] [].

Definition byId : triggerBaseArgs := mkTriggerBaseArgs 1 5 "t1".
Definition byName : triggerBaseArgs := mkTriggerBaseArgs 1 0 "t1".

Definition remove (i : Z) : Command triggerRemoveActionArgs :=
  mkCommand "" (mkTriggerRemoveActionArgs byId i).

Definition httpData : httpActionData.t :=
  httpActionData.mk "http://x" "" "" "text/plain".

Definition add : Command addActionArgs :=
  mkCommand "" (mkAddActionArgs byId 40 (HttpArgs httpData)).

Definition create (release : string) : Command createArgs :=
  mkCommand "/v1/triggers"
    (mkCreateArgs
       (mkTriggerData 0 1 "input" "t1" 0 "{{temp}}>25" None release false false)
       0 (HttpArgs httpData)).

End Fixture.

(** ** The requests the actions are expected to send *)

(** The read (or delete) request that resolves a trigger: by id when the id
    is set, else by name. *)
Definition lookupPath (a : triggerBaseArgs) : string :=
  if 0 <? triggerId a then "/v1/triggers/" +:+ FormatUint (triggerId a)
  else "/v1/triggers".

Definition lookupParams (a : triggerBaseArgs) : list (string * string) :=
  if 0 <? triggerId a then [] else [("name", triggerName a)].

Definition fetchRequest (a : triggerBaseArgs) : request :=
  mkRequest GET (lookupPath a) (lookupParams a) (Some 200) (Some (projectId a))
    false false None true true.

Definition deleteRequest (a : triggerBaseArgs) : request :=
  mkRequest DELETE (lookupPath a) (lookupParams a) (Some 204) (Some (projectId a))
    false false None false false.

(** The full-resource replace of a trigger. *)
Definition replaceRequest (t : fullTrigger) : request :=
  mkRequest PUT ("/v1/triggers/" +:+ FormatUint (TriggerId (data t))) [] (Some 200)
    (Some (ProjectId (data t))) false false (Some t) false false.

(** The requests an action added to the log. *)
Definition sentBy {W} (before after : state W) : list request :=
  drop (length (sent before)) (sent after).

(** ** Printing a trigger *)

(** Go's [int] arithmetic wraps in two's complement. *)
Definition int_wrap (z : Z) : Z := (z + 2 ^ 63) mod 2 ^ 64 - 2 ^ 63.

(** [%d] of an [int]. *)
Definition FormatInt (z : Z) : string :=
  if z <? 0 then "-" +:+ FormatUint (- z) else FormatUint z.

Record triggerListArgs := mkTriggerListArgs {
  list_projectId : Z }.

Definition triggerListArgs_IsValid (a : triggerListArgs) : bool :=
  0 <? list_projectId a.

(** [triggerGetArgs.IsValid] and [triggerDeleteArgs.IsValid] both defer to
    the embedded base arguments. *)
Definition triggerGetArgs_IsValid : triggerBaseArgs -> bool := triggerBaseArgs_IsValid.
Definition triggerDeleteArgs_IsValid : triggerBaseArgs -> bool := triggerBaseArgs_IsValid.

(** What [Execute] leaves behind for the list request, whose response body
    is a [triggersResult]: the decoded triggers, when the client decoded and
    handed them to the handler, and the error. *)
Record listResponse := mkListResponse {
  list_decoded : option (list fullTrigger);
  list_err : option string }.

Section Display.

Variable W : Type.
Variable Execute : request -> W -> response * W.
Variable ExecuteList : request -> W -> listResponse * W.

(** The text [%v] gives for the [Args] of an action: the formatting of an
    arbitrary value belongs to the [fmt] package and is taken as given. *)
Variable formatArgs : anyArgs -> string.

Local Notation "x <~ m ;; k" := (bind W m (fun x => k))
  (at level 20, m at level 99, k at level 200, only parsing).
Local Notation "' p <~ m ;; k" := (bind W m (fun p => k))
  (at level 20, p pattern, m at level 99, k at level 200, only parsing).

(** One turn of the loop of [Print], with the counter [i] as it stands. *)
Definition printAction (i : Z) (a : triggerAction) : M W unit :=
  _ <~ (if negb (i =? 1) then Println W "" else ret W tt);;
  _ <~ Println W ("  " +:+ FormatInt i +:+ ") Action type: " +:+ Type_ a);;
  _ <~ Println W ("     Min delay  : " +:+ FormatUint (MinDelay a));;
  Println W ("     Args: " +:+ formatArgs (Args a)).

(** The loop over [t.Actions]; [i++] after each turn. *)
Fixpoint printActions (i : Z) (acts : list triggerAction) : M W unit :=
  match acts with
  | [] => ret W tt
  | a :: rest => _ <~ printAction i a;; printActions (int_wrap (i + 1)) rest
  end.

Definition fullTrigger_Print (t : fullTrigger) : M W unit :=
  let d := data t in
  _ <~ Println W ("Trigger ID   : " +:+ FormatUint (TriggerId d));;
  _ <~ Println W ("Trigger name : " +:+ TriggerName d);;
  _ <~ Println W ("Project ID   : " +:+ FormatUint (ProjectId d));;
  _ <~ Println W ("Data expiry  : " +:+ FormatUint (DataExpiry d));;
  _ <~ Println W ("Namespace    : " +:+ Namespace d);;
  _ <~ Println W ("Fire when : " +:+ FireWhen d);;
  _ <~ match ReleaseWhenPtr d with
       | Some r => Println W ("Release when : " +:+ r)
       | None => ret W tt
       end;;
  _ <~ Println W "Actions:";;
  _ <~ printActions 1 (Actions t);;
  Println W "".

Definition getTrigger (c : Command triggerBaseArgs) : M W (option error) :=
  '(t, err) <~ _getTrigger Execute (Data c);;
  _ <~ (if err is None then fullTrigger_Print t else ret W tt);;
  ret W err.

(** The handler's loop [for _, t := range results.Triggers]. *)
Fixpoint printAll (ts : list fullTrigger) : M W unit :=
  match ts with
  | [] => ret W tt
  | t :: rest => _ <~ fullTrigger_Print t;; printAll rest
  end.

(** The handler runs inside [Execute], after the request has gone out. *)
Definition getAllTriggers (c : Command triggerListArgs) : M W (option error) :=
  fun s =>
    let req := ResponseBodyHandler (ResponseBody
                 (ProjectToken (list_projectId (Data c))
                    (Expect 200 (Client_Get (ApiPath c))))) in
    let '(resp, w) := ExecuteList req (world s) in
    (_ <~ match list_decoded resp with
          | Some ts => printAll ts
          | None => ret W tt
          end;;
     ret W (asError (list_err resp)))
      (mkState w (sent s ++ [req]) (stdout s)).

End Display.

Arguments printAction {W} formatArgs i a s.
Arguments printActions {W} formatArgs i acts s.
Arguments fullTrigger_Print {W} formatArgs t s.
Arguments getTrigger {W} Execute formatArgs c s.
Arguments printAll {W} formatArgs ts s.
Arguments getAllTriggers {W} ExecuteList formatArgs c s.

(** *** The lines [Print] is expected to write *)

Definition actionLines (formatArgs : anyArgs -> string) (k : nat) (a : triggerAction)
    : list string :=
  (if k is O then [] else [""])
  ++ ["  " +:+ FormatUint (Z.of_nat (S k)) +:+ ") Action type: " +:+ Type_ a;
      "     Min delay  : " +:+ FormatUint (MinDelay a);
      "     Args: " +:+ formatArgs (Args a)].

Definition headerLines (d : triggerData) : list string :=
  ["Trigger ID   : " +:+ FormatUint (TriggerId d);
   "Trigger name : " +:+ TriggerName d;
   "Project ID   : " +:+ FormatUint (ProjectId d);
   "Data expiry  : " +:+ FormatUint (DataExpiry d);
   "Namespace    : " +:+ Namespace d;
   "Fire when : " +:+ FireWhen d]
  ++ (if ReleaseWhenPtr d is Some r then ["Release when : " +:+ r] else [])
  ++ ["Actions:"].

Definition triggerLines (formatArgs : anyArgs -> string) (t : fullTrigger) : list string :=
  headerLines (data t) ++ mjoin (imap (actionLines formatArgs) (Actions t)) ++ [""].

(** A state after more lines have been printed. *)
Definition printed {W} (s : state W) (lines : list string) : state W :=
  mkState (world s) (sent s) (stdout s ++ lines).

(** ** Flag sets and command construction *)

(** A flag as the [flag] package records it: name, default (as text) and
    usage line. *)
Record Flag := mkFlag {
  flag_name : string;
  flag_default : string;
  flag_usage : string }.

Record FlagSet := mkFlagSet {
  fs_name : string;
  formal : list Flag }.

Definition NewFlagSet (name : string) : FlagSet := mkFlagSet name [].

Definition flagNames (fs : FlagSet) : list string := flag_name <$> formal fs.

(** Defining a flag whose name is taken panics. *)
Definition FlagSet_Var (f : Flag) (fs : FlagSet) : result FlagSet :=
  if bool_decide (flag_name f ∈ flagNames fs) then
    Panic (if String.eqb (fs_name fs) "" then "flag redefined: " +:+ flag_name f
           else fs_name fs +:+ " flag redefined: " +:+ flag_name f)
  else Ret (mkFlagSet (fs_name fs) (formal fs ++ [f])).

(** Several definitions in a row, stopping at the first panic. *)
Fixpoint FlagSet_Vars (l : list Flag) (fs : FlagSet) : result FlagSet :=
  match l with
  | [] => Ret fs
  | f :: rest =>
      match FlagSet_Var f fs with
      | Ret fs' => FlagSet_Vars rest fs'
      | Panic msg => Panic msg
      end
  end.

(** The flags each [setFlags] defines, in order. *)
Definition httpFlags : list Flag :=
  [mkFlag "url" "" "URL to POST to when trigger is executed.";
   mkFlag "payload" "" "Body of POST request (optional).";
   mkFlag "authHeader" ""
     "Value of 'Authorization' header of POST request, if needed (optional).";
   mkFlag "contentType" "text/plain" "Content type of payload."].

Definition mqttFlags : list Flag :=
  [mkFlag "broker" "" "MQTT broker address to send to.";
   mkFlag "username" "" "Username to use with MQTT broker";
   mkFlag "password" "" "Password to use with MQTT broker";
   mkFlag "topic" "" "MQTT topic to post message to.";
   mkFlag "payload" "" "Body of the MQTT request."].

Definition smsFlags : list Flag :=
  [mkFlag "accountSid" "" "Twilio account SID.";
   mkFlag "authToken" "" "Twilio authorization token.";
   mkFlag "from" "" "Phone number of the SMS sender.";
   mkFlag "to" "" "Phone number of the SMS recipient.";
   mkFlag "payload" "" "SMS message body."].

Definition emailFlags : list Flag :=
  [mkFlag "to" "" "Email address recipient.";
   mkFlag "subject" "" "Email subject line.";
   mkFlag "payload" "" "Email message body."].

(** [a.setFlags(flags)] through the interface: the fields take the
    defaults and the flags are defined.  Nothing is known of the flags of a
    foreign implementor, which is taken to define none. *)
Definition actionArgs_setFlags (a : actionArgs) (fs : FlagSet)
    : result (actionArgs * FlagSet) :=
  match a with
  | EmailArgs d =>
      match emailActionData.setFlags d with
      | Ret d' => match FlagSet_Vars emailFlags fs with
                  | Ret fs' => Ret (EmailArgs d', fs')
                  | Panic msg => Panic msg
                  end
      | Panic msg => Panic msg
      end
  | HttpArgs d =>
      match FlagSet_Vars httpFlags fs with
      | Ret fs' => Ret (HttpArgs (httpActionData.setFlags d), fs')
      | Panic msg => Panic msg
      end
  | MqttArgs d =>
      match FlagSet_Vars mqttFlags fs with
      | Ret fs' => Ret (MqttArgs (mqttActionData.setFlags d), fs')
      | Panic msg => Panic msg
      end
  | SmsArgs d =>
      match FlagSet_Vars smsFlags fs with
      | Ret fs' => Ret (SmsArgs (smsActionData.setFlags d), fs')
      | Panic msg => Panic msg
      end
  | OtherArgs _ _ => Ret (a, fs)
  | NilArgs => Panic msgNilDeref
  end.

Definition descCreateProjectId : string :=
  "Project ID this trigger belongs to (defaults to active project).".
Definition descCreateTriggerName : string := "Name of the new trigger.".
Definition descCreateDataExpiry : string :=
  "Time (in milliseconds) after which data is considered too old to fire trigger (0 = never too old).".
Definition descCreateMinDelay : string :=
  "Minimum time (in milliseconds) between successive trigger firings (used to rate limit trigger events).".
Definition descCreateFireWhen : string :=
  String.concat "" ["Condition when a trigger is fired (ex. "; String (Ascii.ascii_of_nat 34) "";
                    "{{ temp }} > 25.0"; String (Ascii.ascii_of_nat 34) ""; ")."].

(** [fmt.Sprintf(descCreateTypeFmt, s)] and [fmt.Sprintf(descAddActionTypeFmt, s)]. *)
Definition descCreateType (s : string) : string :=
  "Create a new trigger with an " +:+ s +:+ " action.".
Definition descAddActionType (s : string) : string :=
  "Add new " +:+ s +:+ " action to a trigger.".

(** [flagSetNames] after [init]: the entry this file registers. *)
Definition flagSetNames : gmap string string := <[keyTrigger := "iobeam trigger"]> ∅.

(** [c.newFlagSetTrigger(cmd)] *)
Definition newFlagSetTrigger (cmd : string) : FlagSet :=
  NewFlagSet (map_get flagSetNames keyTrigger +:+ " " +:+ cmd).

(** The flags [createArgs.setCommonFlags] defines; the project id defaults
    to the active project of the profile. *)
Definition createCommonFlags (activeProject : Z) : list Flag :=
  [mkFlag "projectId" (FormatUint activeProject) descCreateProjectId;
   mkFlag "name" "" descCreateTriggerName;
   mkFlag "dataExpiry" "0" descCreateDataExpiry;
   mkFlag "fireWhen" "" descCreateFireWhen;
   mkFlag "dumpRequest" "false" "Dump the request to std out.";
   mkFlag "dumpResponse" "false" "Dump the response to std out.";
   mkFlag "namespace" "input" "Namespace to read to (Defaults to 'input')";
   mkFlag "minDelay" "0" descCreateMinDelay].

Definition createArgs_setCommonFlags (activeProject : Z) (a : createArgs) (fs : FlagSet)
    : result (createArgs * FlagSet) :=
  let td := cr_triggerData a in
  match FlagSet_Vars (createCommonFlags activeProject) fs with
  | Ret fs' =>
      Ret (mkCreateArgs
             (mkTriggerData (TriggerId td) activeProject "input" "" 0 ""
                (ReleaseWhenPtr td) (releaseWhen td) false false)
             0 (cr_data a), fs')
  | Panic msg => Panic msg
  end.

Definition addActionCommonFlags (activeProject : Z) : list Flag :=
  [mkFlag "projectId" (FormatUint activeProject) descCreateProjectId;
   mkFlag "triggerName" "" "Name of trigger to add action to";
   mkFlag "minDelay" "0" descCreateMinDelay].

Definition addActionArgs_setCommonFlags (activeProject : Z) (a : addActionArgs)
    (fs : FlagSet) : result (addActionArgs * FlagSet) :=
  match FlagSet_Vars (addActionCommonFlags activeProject) fs with
  | Ret fs' =>
      Ret (mkAddActionArgs
             (mkTriggerBaseArgs activeProject (triggerId (add_base a)) "")
             0 (add_data a), fs')
  | Panic msg => Panic msg
  end.

(** The function a command runs. *)
Inductive CommandAction : Type :=
| RunCreateTrigger
| RunAddAction
| RunDelAction
| RunGetTrigger
| RunDeleteTrigger
| RunGetAllTriggers.

(** A leaf command as its constructor leaves it: the fields of [Command]
    next to the path and data, and the flag set made for it. *)
Record LeafCommand (D : Type) := mkLeafCommand {
  Name : string;
  Usage : string;
  Action : CommandAction;
  Flags : FlagSet;
  Cmd : Command D }.
Arguments mkLeafCommand {D} Name Usage Action Flags Cmd.
Arguments Name {D} l.
Arguments Usage {D} l.
Arguments Action {D} l.
Arguments Flags {D} l.
Arguments Cmd {D} l.

Definition zeroCreateArgs (d : actionArgs) : createArgs :=
  mkCreateArgs zeroTriggerData 0 d.

Definition zeroAddActionArgs (d : actionArgs) : addActionArgs :=
  mkAddActionArgs (mkTriggerBaseArgs 0 0 "") 0 d.

Definition newGenericTriggerCommand (activeProject : Z) (c : createArgs)
    (name desc : string) : result (LeafCommand createArgs) :=
  let flags := newFlagSetTrigger ("create " +:+ name) in
  match createArgs_setCommonFlags activeProject c flags with
  | Ret (c, flags) =>
      match actionArgs_setFlags (cr_data c) flags with
      | Ret (d, flags) =>
          Ret (mkLeafCommand name desc RunCreateTrigger flags
                 (mkCommand (map_get baseApiPath keyTrigger)
                    (mkCreateArgs (cr_triggerData c) (cr_minDelay c) d)))
      | Panic msg => Panic msg
      end
  | Panic msg => Panic msg
  end.

Definition newCreateTypeCommand (activeProject : Z) (action : string)
    : result (LeafCommand createArgs) :=
  match getActionArgs action with
  | Ret d =>
      newGenericTriggerCommand activeProject (zeroCreateArgs d) action
        (descCreateType (map_get actionTypes action))
  | Panic msg => Panic msg
  end.

(** The path of an add-action command is decided by the flags at run time. *)
Definition newGenericAddActionTriggerCommand (activeProject : Z) (c : addActionArgs)
    (name desc : string) : result (LeafCommand addActionArgs) :=
  let flags := newFlagSetTrigger ("add-action " +:+ name) in
  match addActionArgs_setCommonFlags activeProject c flags with
  | Ret (c, flags) =>
      match actionArgs_setFlags (add_data c) flags with
      | Ret (d, flags) =>
          Ret (mkLeafCommand name desc RunAddAction flags
                 (mkCommand "" (mkAddActionArgs (add_base c) (add_minDelay c) d)))
      | Panic msg => Panic msg
      end
  | Panic msg => Panic msg
  end.

Definition newAddActionTypeCommand (activeProject : Z) (action : string)
    : result (LeafCommand addActionArgs) :=
  match getActionArgs action with
  | Ret d =>
      newGenericAddActionTriggerCommand activeProject (zeroAddActionArgs d) action
        (descAddActionType (map_get actionTypes action))
  | Panic msg => Panic msg
  end.

(** A command that only dispatches on the action kind. *)
Record MuxCommand (D : Type) := mkMuxCommand {
  mux_Name : string;
  mux_Usage : string;
  SubCommands : gmap string (LeafCommand D);
  mux_Flags : FlagSet }.
Arguments mkMuxCommand {D} mux_Name mux_Usage SubCommands mux_Flags.
Arguments mux_Name {D} m.
Arguments mux_Usage {D} m.
Arguments SubCommands {D} m.
Arguments mux_Flags {D} m.

(** [for t := range keys { subs[t] = fn(t) }]: the first panic ends it. *)
Fixpoint muxEntries {D} (fn : string -> result (LeafCommand D)) (keys : list string)
    (subs : gmap string (LeafCommand D)) : result (gmap string (LeafCommand D)) :=
  match keys with
  | [] => Ret subs
  | t :: rest =>
      match fn t with
      | Ret c => muxEntries fn rest (<[t := c]> subs)
      | Panic msg => Panic msg
      end
  end.

(** The loop ranges over [actionTypes]; the order, which Go leaves open, is
    taken to be that of [map_to_list]. *)
Definition newMuxOnActionTypeCommand {D} (action usage : string)
    (fn : string -> result (LeafCommand D)) : result (MuxCommand D) :=
  match muxEntries fn (map_to_list actionTypes).*1 ∅ with
  | Ret subs => Ret (mkMuxCommand action usage subs (newFlagSetTrigger action))
  | Panic msg => Panic msg
  end.

Definition newCreateTriggerCommand (activeProject : Z) : result (MuxCommand createArgs) :=
  newMuxOnActionTypeCommand "create" "Create a new trigger with an action."
    (newCreateTypeCommand activeProject).

Definition newAddActionTriggerCommand (activeProject : Z)
    : result (MuxCommand addActionArgs) :=
  newMuxOnActionTypeCommand "add-action" "Add an action to a trigger."
    (newAddActionTypeCommand activeProject).

(** The get, delete, remove-action and list commands. *)
Definition newGetTriggerCommand (activeProject : Z) : result (LeafCommand triggerBaseArgs) :=
  match FlagSet_Vars
          [mkFlag "projectId" (FormatUint activeProject) "Project ID to get trigger from.";
           mkFlag "id" "0" "Trigger ID to get (either this or -name must be set).";
           mkFlag "name" "" "Trigger name to get (either this or -id must be set)."]
          (newFlagSetTrigger "get") with
  | Ret fs =>
      Ret (mkLeafCommand "get" "Get trigger matching a name or id" RunGetTrigger fs
             (mkCommand "" (mkTriggerBaseArgs activeProject 0 "")))
  | Panic msg => Panic msg
  end.

Definition newDeleteTriggerCommand (activeProject : Z)
    : result (LeafCommand triggerBaseArgs) :=
  match FlagSet_Vars
          [mkFlag "projectId" (FormatUint activeProject) "Project ID to delete trigger from.";
           mkFlag "id" "0" "Trigger ID to delete."]
          (newFlagSetTrigger "delete") with
  | Ret fs =>
      Ret (mkLeafCommand "delete" "Delete trigger by id" RunDeleteTrigger fs
             (mkCommand "" (mkTriggerBaseArgs activeProject 0 "")))
  | Panic msg => Panic msg
  end.

Definition newRemoveActionTriggerCommand (activeProject : Z)
    : result (LeafCommand triggerRemoveActionArgs) :=
  match FlagSet_Vars
          [mkFlag "projectId" (FormatUint activeProject) "Project ID of trigger.";
           mkFlag "triggerId" "0"
             "Trigger ID containing the action (either this or -name must be set).";
           mkFlag "triggerName" ""
             "Trigger name containing the action (either this or -id must be set).";
           mkFlag "num" "0"
             "Action number to remove (see output of 'iobeam trigger list')."]
          (newFlagSetTrigger "remove-action") with
  | Ret fs =>
      Ret (mkLeafCommand "remove-action" "Remove action from a trigger." RunDelAction fs
             (mkCommand ""
                (mkTriggerRemoveActionArgs (mkTriggerBaseArgs activeProject 0 "") 0)))
  | Panic msg => Panic msg
  end.

Definition newListTriggersCommand (activeProject : Z)
    : result (LeafCommand triggerListArgs) :=
  match FlagSet_Vars
          [mkFlag "projectId" (FormatUint activeProject) "Project ID to get triggers from."]
          (newFlagSetTrigger "list") with
  | Ret fs =>
      Ret (mkLeafCommand "list" "Get all triggers for a project" RunGetAllTriggers fs
             (mkCommand (map_get baseApiPath keyTrigger) (mkTriggerListArgs activeProject)))
  | Panic msg => Panic msg
  end.

(** The base [trigger] command: its six sub-commands, built in the order
    the map literal lists them, and its own flag set. *)
Record TriggersCommand := mkTriggersCommand {
  base_Name : string;
  base_Usage : string;
  sub_addAction : MuxCommand addActionArgs;
  sub_create : MuxCommand createArgs;
  sub_delete : LeafCommand triggerBaseArgs;
  sub_get : LeafCommand triggerBaseArgs;
  sub_list : LeafCommand triggerListArgs;
  sub_removeAction : LeafCommand triggerRemoveActionArgs;
  base_Flags : FlagSet }.

Definition NewTriggersCommand (activeProject : Z) : result TriggersCommand :=
  match newAddActionTriggerCommand activeProject with
  | Panic msg => Panic msg
  | Ret a =>
  match newCreateTriggerCommand activeProject with
  | Panic msg => Panic msg
  | Ret c =>
  match newDeleteTriggerCommand activeProject with
  | Panic msg => Panic msg
  | Ret d =>
  match newGetTriggerCommand activeProject with
  | Panic msg => Panic msg
  | Ret g =>
  match newListTriggersCommand activeProject with
  | Panic msg => Panic msg
  | Ret l =>
  match newRemoveActionTriggerCommand activeProject with
  | Panic msg => Panic msg
  | Ret r =>
      Ret (mkTriggersCommand keyTrigger "Commands for managing triggers." a c d g l r
             (NewFlagSet (map_get flagSetNames keyTrigger)))
  end end end end end end.

(** The data and flags [setFlags] leaves for each registered kind. *)
Definition kindDefaults (k : string) : actionArgs :=
  if String.eqb k "email" then EmailArgs (emailActionData.mk [""] "" "")
  else if String.eqb k "http" then HttpArgs (httpActionData.mk "" "" "" "text/plain")
  else if String.eqb k "mqtt" then MqttArgs mqttActionData.zero
  else SmsArgs smsActionData.zero.

Definition kindFlags (k : string) : list Flag :=
  if String.eqb k "email" then emailFlags
  else if String.eqb k "http" then httpFlags
  else if String.eqb k "mqtt" then mqttFlags
  else smsFlags.

(** ** More of the example server *)

Module Fixture2.

(** A server that holds no trigger. *)
Definition empty : state Fixture.store := mkState None [] [].

Definition removeByName (i : Z) : Command triggerRemoveActionArgs :=
  mkCommand "" (mkTriggerRemoveActionArgs Fixture.byName i).

Definition get : Command triggerBaseArgs := mkCommand "" Fixture.byId.

Definition list : Command triggerListArgs :=
  mkCommand "/v1/triggers" (mkTriggerListArgs 1).

(** The list request answers with the stored trigger, if any. *)
Definition ExecuteList (r : request) (w : Fixture.store) : listResponse * Fixture.store :=
  match w with
  | Some t => (mkListResponse (Some [t]) None, w)
  | None => (mkListResponse (Some []) None, w)
  end.

(** A stand-in for the text of the arguments. *)
Definition formatArgs (a : anyArgs) : string :=
  match a with
  | ArgsOf _ => "&{...}"
  | Decoded json => json
  end.


End Fixture2.

(** * Properties *)

(** ** Machine integers, strings and slices *)

Lemma U64_wrap_small z : U64.in_range z -> U64.wrap z = z.
Proof. unfold U64.in_range, U64.wrap. intros H. apply Z.mod_small. lia. Qed.

Lemma U64_wrap_in_range z : U64.in_range (U64.wrap z).
Proof. unfold U64.in_range, U64.wrap, U64.modulus. apply Z.mod_pos_bound. lia. Qed.

Lemma U64_sub_no_borrow a b :
  U64.in_range a -> 0 <= b <= a -> U64.sub a b = a - b.
Proof.
  unfold U64.sub. intros Ha Hb. apply U64_wrap_small. unfold U64.in_range in *. lia.
Qed.

(** [0 - 1] on [uint64] is the largest value. *)
Lemma U64_sub_zero_one : U64.sub 0 1 = U64.modulus - 1.
Proof. reflexivity. Qed.

Lemma len_string_pos s : (0 <? len_string s) = true <-> s <> "".
Proof.
  unfold len_string. destruct s as [|c s]; cbn.
  - split; [discriminate | congruence].
  - split; [discriminate | intros _; apply Z.ltb_lt; lia].
Qed.

Lemma len_string_pos_false s : (0 <? len_string s) = false <-> s = "".
Proof.
  unfold len_string. destruct s as [|c s]; cbn.
  - split; reflexivity.
  - split; [|discriminate]. intros H. apply Z.ltb_ge in H. lia.
Qed.

Lemma len_nonneg {A} (s : list A) : 0 <= len s.
Proof. unfold len. lia. Qed.

(** ** Validity predicates *)

Ltac split_andb :=
  repeat match goal with
         | |- context [andb _ _ = true] => rewrite andb_true_iff
         | |- context [(0 <? len_string ?s) = true] => rewrite (len_string_pos s)
         end.

(** C5: [triggerData.IsValid] holds exactly when [ProjectId > 0], the
    trigger name and [FireWhen] are non-empty and [DataExpiry >= 0]; the
    namespace, the release condition (pointer and string), the trigger id
    and the two dump flags can be replaced by any values without changing the
    answer. *)
Theorem triggerData_IsValid_iff (d : triggerData) :
  (triggerData_IsValid d = true <->
     0 < ProjectId d /\ TriggerName d <> "" /\ FireWhen d <> "" /\ 0 <= DataExpiry d)
  /\ (forall (id : Z) (ns : string) (ptr : option string) (rel : string)
             (dreq dresp : bool),
        triggerData_IsValid
          (mkTriggerData id (ProjectId d) ns (TriggerName d) (DataExpiry d)
             (FireWhen d) ptr rel dreq dresp)
        = triggerData_IsValid d).
Proof.
  split; [|reflexivity].
  unfold triggerData_IsValid. split_andb.
  rewrite Z.ltb_lt, Z.leb_le. tauto.
Qed.

(** C6: the validity rules of the HTTP, MQTT and SMS action data, and the
    fields each rule ignores. *)
Theorem non_email_Valid_iff :
  (forall d : httpActionData.t,
      (httpActionData.Valid d = true <->
         httpActionData.URL d <> "" /\ httpActionData.ContentType d <> "")
      /\ (forall payload auth : string,
            httpActionData.Valid
              (httpActionData.mk (httpActionData.URL d) payload auth
                 (httpActionData.ContentType d))
            = httpActionData.Valid d))
  /\ (forall d : mqttActionData.t,
      (mqttActionData.Valid d = true <->
         mqttActionData.Broker d <> "" /\ mqttActionData.Topic d <> ""
         /\ mqttActionData.Payload d <> "")
      /\ (forall (user pass : string) (qos : Z),
            mqttActionData.Valid
              (mqttActionData.mk (mqttActionData.Broker d) user pass qos
                 (mqttActionData.Topic d) (mqttActionData.Payload d))
            = mqttActionData.Valid d))
  /\ (forall d : smsActionData.t,
      smsActionData.Valid d = true <->
        smsActionData.AccountSID d <> "" /\ smsActionData.AuthToken d <> ""
        /\ smsActionData.From d <> "" /\ smsActionData.To d <> ""
        /\ smsActionData.Payload d <> "").
Proof.
  split; [|split].
  - intros d. split; [|reflexivity].
    unfold httpActionData.Valid. split_andb. tauto.
  - intros d. split; [|reflexivity].
    unfold mqttActionData.Valid. split_andb. tauto.
  - intros d. unfold smsActionData.Valid. split_andb. tauto.
Qed.

(** What the email rule checks: that the recipient slice has an element and
    that the payload is non-empty. *)
Lemma emailActionData_Valid_iff (d : emailActionData.t) :
  emailActionData.Valid d = true <->
    emailActionData.To d <> [] /\ emailActionData.Payload d <> "".
Proof.
  unfold emailActionData.Valid. split_andb.
  rewrite Z.ltb_lt. unfold len.
  destruct (emailActionData.To d); cbn; split; intros [H1 H2]; split;
    try done; lia.
Qed.

(** C2: running an email command with [-payload hello] and no [-to] flag:
    the data that [getActionArgs "email"] builds, after [setFlags] and the
    parse of the one flag, has an empty first recipient and is accepted by
    [Valid]. *)
Theorem email_Valid_empty_recipient :
  let d0 := emailActionData.mk [""] "" "" in
  let d := emailActionData.mk [""] "" "hello" in
  getActionArgs "email" = Ret (EmailArgs d0)
  /\ emailActionData.setFlags d0 = Ret d0
  /\ emailActionData.parseFlag "payload" "hello" d0 = Some d
  /\ emailActionData.To0 d = Ret ""
  /\ emailActionData.Valid d = true
  /\ ~ (emailActionData.Valid d = true <->
          emailActionData.To0 d <> Ret "" /\ emailActionData.Payload d <> "").
Proof.
  cbn. repeat split; try reflexivity.
  intros [H _]. destruct (H eq_refl) as [Hto _]. by apply Hto.
Qed.

(** ** The registry *)

Lemma actionKinds_actionTypes (k : string) :
  k ∈ actionKinds <-> is_Some (actionTypes !! k).
Proof.
  unfold actionKinds, actionTypes.
  rewrite !lookup_insert_is_Some, lookup_empty, <- not_eq_None_Some.
  rewrite !elem_of_cons, elem_of_nil. intuition congruence.
Qed.

Lemma getActionArgs_unknown (k : string) :
  k ∉ actionKinds -> getActionArgs k = Panic msgUnknownAction.
Proof.
  unfold actionKinds. rewrite !not_elem_of_cons. intros (He & Hh & Hm & Hs & _).
  unfold getActionArgs.
  apply String.eqb_neq in He, Hh, Hm, Hs. by rewrite He, Hh, Hm, Hs.
Qed.

(** C7: for each of the four kinds, the tag of the freshly built variant is
    the kind; [getActionArgs] panics on every other name, and
    [getActionType] panics exactly on the values whose dynamic type is none
    of the four, with the same message. *)
Theorem registry_round_trip :
  (forall k : string, k ∈ actionKinds ->
     exists v : actionArgs, getActionArgs k = Ret v /\ getActionType v = Ret k)
  /\ (forall k : string, k ∉ actionKinds -> getActionArgs k = Panic msgUnknownAction)
  /\ (forall v : actionArgs,
        (v = NilArgs \/ exists ty b, v = OtherArgs ty b) ->
        getActionType v = Panic msgUnknownAction)
  /\ (forall (v : actionArgs) (k : string), getActionType v = Ret k -> k ∈ actionKinds).
Proof.
  split; [|split; [|split]].
  - intros k. unfold actionKinds. rewrite !elem_of_cons, elem_of_nil.
    intros [->|[->|[->|[->|[]]]]]; eexists; split; reflexivity.
  - apply getActionArgs_unknown.
  - intros v [->|(ty & b & ->)]; reflexivity.
  - intros v k. unfold actionKinds.
    destruct v; cbn; intros [= <-] || discriminate; set_solver.
Qed.

(** ** Wire form *)

Lemma wire_member_release_when (d : triggerData) :
  wire_member "release_when" (triggerData_wire d) = JString <$> ReleaseWhenPtr d.
Proof.
  unfold wire_member, triggerData_wire.
  destruct (TriggerId d =? 0), (DataExpiry d =? 0), (ReleaseWhenPtr d); reflexivity.
Qed.

(** ** Requests *)

Lemma map_get_baseApiPath : map_get baseApiPath keyTrigger = "/v1/triggers".
Proof. unfold map_get, baseApiPath. by rewrite lookup_insert_eq. Qed.

Lemma getUrlForTriggerId_eq (id : Z) :
  getUrlForTriggerId id = "/v1/triggers/" +:+ FormatUint id.
Proof.
  unfold getUrlForTriggerId, getUrlForResource.
  rewrite map_get_baseApiPath. reflexivity.
Qed.

Lemma getApiPath_eq (a : triggerBaseArgs) : getApiPath a = lookupPath a.
Proof.
  unfold getApiPath, lookupPath.
  by rewrite getUrlForTriggerId_eq, map_get_baseApiPath.
Qed.

Lemma leb_zero_ltb (z : Z) : (z <=? 0) = negb (0 <? z).
Proof. destruct (Z.ltb_spec 0 z), (Z.leb_spec z 0); (reflexivity || lia). Qed.

Section ClientProperties.

Variable W : Type.
Variable Execute : request -> W -> response * W.

Lemma getTrigger_run (a : triggerBaseArgs) (s : state W) :
  _getTrigger Execute a s =
    let r := Execute (fetchRequest a) (world s) in
    (Ret (default zeroFullTrigger (resp_decoded r.1), asError (resp_err r.1)),
     mkState r.2 (sent s ++ [fetchRequest a]) (stdout s)).
Proof.
  unfold _getTrigger, bind, execute, ret.
  assert (ResponseBodyHandler (ResponseBody (ProjectToken (projectId a) (Expect 200
            (if triggerId a <=? 0
             then Param "name" (triggerName a) (Client_Get (getApiPath a))
             else Client_Get (getApiPath a))))) = fetchRequest a) as ->.
  { rewrite getApiPath_eq, leb_zero_ltb. unfold fetchRequest, lookupParams.
    by destruct (0 <? triggerId a). }
  by destruct (Execute (fetchRequest a) (world s)).
Qed.

Lemma getTrigger_sent (a : triggerBaseArgs) (s s1 : state W) r :
  _getTrigger Execute a s = (r, s1) -> sent s1 = sent s ++ [fetchRequest a].
Proof. rewrite getTrigger_run. cbn. by intros [= _ <-]. Qed.

Lemma putTrigger_run (t : fullTrigger) (s : state W) :
  _putTrigger Execute t s =
    let r := Execute (replaceRequest t) (world s) in
    (Ret (asError (resp_err r.1)),
     mkState r.2 (sent s ++ [replaceRequest t]) (stdout s)).
Proof.
  unfold _putTrigger, bind, execute, ret.
  rewrite getUrlForTriggerId_eq.
  change (Body t _) with (replaceRequest t).
  by destruct (Execute (replaceRequest t) (world s)).
Qed.

Lemma sentBy_app (s s' : state W) (l : list request) :
  sent s' = sent s ++ l -> sentBy s s' = l.
Proof. unfold sentBy. intros ->. by rewrite drop_app_length. Qed.

(** Every action that resolves a trigger starts with the lookup request. *)
Lemma delAction_sent_head (c : Command triggerRemoveActionArgs) (s : state W) :
  exists rest,
    sent (delAction Execute c s).2 = sent s ++ fetchRequest (rm_base (Data c)) :: rest.
Proof.
  unfold delAction, bind. rewrite getTrigger_run. cbn.
  destruct (Execute (fetchRequest _) (world s)) as [resp w]; cbn.
  destruct (resp_err resp); cbn; [by exists []|].
  destruct (_ >? _); cbn; [by exists []|].
  unfold lift. destruct (slice_to _ _); cbn; [|by exists []].
  destruct (slice_from _ _); cbn; [|by exists []].
  rewrite putTrigger_run. cbn.
  destruct (Execute (replaceRequest _) w) as [resp' w']; cbn.
  destruct (resp_err resp'); cbn; eexists; by rewrite <- app_assoc.
Qed.

Lemma addAction_sent_head (c : Command addActionArgs) (s : state W) :
  exists rest,
    sent (addAction Execute c s).2 = sent s ++ fetchRequest (add_base (Data c)) :: rest.
Proof.
  unfold addAction, bind. rewrite getTrigger_run. cbn.
  destruct (Execute (fetchRequest _) (world s)) as [resp w]; cbn.
  destruct (resp_err resp); cbn; [by exists []|].
  unfold lift. destruct (getActionType _); cbn; [|by exists []].
  rewrite putTrigger_run. cbn.
  destruct (Execute (replaceRequest _) w) as [resp' w']; cbn.
  destruct (resp_err resp'); cbn; eexists; by rewrite <- app_assoc.
Qed.

Lemma deleteTrigger_sent (c : Command triggerBaseArgs) (s : state W) :
  sent (deleteTrigger Execute c s).2 = sent s ++ [deleteRequest (Data c)].
Proof.
  unfold deleteTrigger, bind, execute, ret.
  assert (ProjectToken (projectId (Data c)) (Expect 204
            (if triggerId (Data c) <=? 0
             then Param "name" (triggerName (Data c)) (Client_Delete (getApiPath (Data c)))
             else Client_Delete (getApiPath (Data c)))) = deleteRequest (Data c)) as ->.
  { rewrite getApiPath_eq, leb_zero_ltb. unfold deleteRequest, lookupParams.
    by destruct (0 <? triggerId (Data c)). }
  destruct (Execute (deleteRequest _) (world s)) as [resp w]; cbn.
  by destruct (resp_err resp).
Qed.

Lemma lookup_by_id (a : triggerBaseArgs) :
  0 < triggerId a ->
  lookupPath a = "/v1/triggers/" +:+ FormatUint (triggerId a) /\ lookupParams a = [].
Proof.
  intros H. apply Z.ltb_lt in H. unfold lookupPath, lookupParams. by rewrite H.
Qed.

Lemma lookup_by_name (a : triggerBaseArgs) :
  triggerId a = 0 ->
  lookupPath a = "/v1/triggers" /\ lookupParams a = [("name", triggerName a)].
Proof. intros H. unfold lookupPath, lookupParams. by rewrite H. Qed.

(** C8: get, delete, add-action and remove-action resolve the trigger with
    one request whose path is [/v1/triggers/{id}] with no [name] parameter
    when [triggerId > 0], whatever the trigger name is, and whose path is
    [/v1/triggers] with [name] set to the trigger name when [triggerId = 0]. *)
Theorem lookup_key_precedence (a : triggerBaseArgs) (s : state W) :
  exists rget rdel : request,
    req_method rget = GET /\ req_method rdel = DELETE
    /\ sentBy s (_getTrigger Execute a s).2 = [rget]
    /\ (forall p, sentBy s (deleteTrigger Execute (mkCommand p a) s).2 = [rdel])
    /\ (forall p i,
          head (sentBy s (delAction Execute
                            (mkCommand p (mkTriggerRemoveActionArgs a i)) s).2)
          = Some rget)
    /\ (forall p delay d,
          head (sentBy s (addAction Execute
                            (mkCommand p (mkAddActionArgs a delay d)) s).2)
          = Some rget)
    /\ (0 < triggerId a ->
          forall r, r = rget \/ r = rdel ->
            req_path r = "/v1/triggers/" +:+ FormatUint (triggerId a)
            /\ req_params r = [])
    /\ (triggerId a = 0 ->
          forall r, r = rget \/ r = rdel ->
            req_path r = "/v1/triggers"
            /\ req_params r = [("name", triggerName a)]).
Proof.
  exists (fetchRequest a), (deleteRequest a).
  split; [done|]. split; [done|].
  split. { apply sentBy_app. by rewrite getTrigger_run. }
  split. { intros p. apply sentBy_app. by rewrite deleteTrigger_sent. }
  split.
  { intros p i.
    destruct (delAction_sent_head (mkCommand p (mkTriggerRemoveActionArgs a i)) s)
      as [rest Hrest].
    by rewrite (sentBy_app _ _ _ Hrest). }
  split.
  { intros p delay d.
    destruct (addAction_sent_head (mkCommand p (mkAddActionArgs a delay d)) s)
      as [rest Hrest].
    by rewrite (sentBy_app _ _ _ Hrest). }
  split.
  - intros Hid r [->| ->]; by apply lookup_by_id.
  - intros Hid r [->| ->]; by apply lookup_by_name.
Qed.

(** ** Removing an action *)


Lemma representable_in_range {A} (l : list A) :
  representable l -> U64.in_range (len l).
Proof.
  unfold representable, U64.in_range, Int.max, U64.modulus. pose proof (len_nonneg l). lia.
Qed.

(** [delAction] once the trigger has been fetched: the rest of the body. *)
Lemma delAction_fetched (c : Command triggerRemoveActionArgs) (s s1 : state W)
    (trigger : fullTrigger) :
  _getTrigger Execute (rm_base (Data c)) s = (Ret (trigger, None), s1) ->
  delAction Execute c s =
    (let idx := U64.sub (index (Data c)) 1 in
     let lenActions := U64.wrap (len (Actions trigger)) in
     if idx >? lenActions then
       ret W (Some (InvalidActionIndex (index (Data c)) lenActions))
     else
       bind W (lift W (slice_to (Actions trigger) idx)) (fun head =>
       bind W (lift W (slice_from (Actions trigger) (U64.add idx 1))) (fun tail =>
       bind W (_putTrigger Execute (set_Actions trigger (head ++ tail))) (fun err =>
       bind W (if err is None
               then Println W "Action successfully removed from trigger."
               else ret W tt) (fun _ =>
       ret W err))))) s1.
Proof. intros H. unfold delAction at 1, bind at 1. by rewrite H. Qed.

(** C1: with [N] actions fetched and a 1-based index [i >= 1], the guard
    tests [i - 1 > N]: an index above [N + 1] is answered with the
    invalid-index error and an index of exactly [N + 1] passes the guard and
    panics in the slice expression; in both cases the lookup is the only
    request sent. *)
Theorem delAction_boundary (c : Command triggerRemoveActionArgs) (s s1 : state W)
    (trigger : fullTrigger) :
  let i := index (Data c) in
  let N := len (Actions trigger) in
  _getTrigger Execute (rm_base (Data c)) s = (Ret (trigger, None), s1) ->
  representable (Actions trigger) ->
  U64.in_range i -> 1 <= i ->
  ((U64.sub i 1 >? U64.wrap N) = true <-> N + 1 < i)
  /\ (N + 1 < i ->
        delAction Execute c s = (Ret (Some (InvalidActionIndex i N)), s1))
  /\ (i = N + 1 ->
        slice_to (Actions trigger) (i - 1) = Ret (Actions trigger)
        /\ slice_from (Actions trigger) i = Panic msgSliceBounds
        /\ delAction Execute c s = (Panic msgSliceBounds, s1))
  /\ sentBy s s1 = [fetchRequest (rm_base (Data c))].
Proof.
  intros i N Hfetch Hrep Hi Hpos.
  assert (Hidx : U64.sub i 1 = i - 1) by (apply U64_sub_no_borrow; [done | lia]).
  assert (HN : U64.wrap N = N) by (by apply U64_wrap_small, representable_in_range).
  assert (Hguard : (U64.sub i 1 >? U64.wrap N) = true <-> N + 1 < i).
  { rewrite Hidx, HN, Z.gtb_ltb, Z.ltb_lt. lia. }
  split; [done|]. split; [|split].
  - intros Hbig. rewrite (delAction_fetched _ _ _ _ Hfetch). cbn zeta.
    fold i N. apply Hguard in Hbig. rewrite Hbig. by rewrite HN.
  - intros Heq.
    assert (Hto : slice_to (Actions trigger) (i - 1) = Ret (Actions trigger)).
    { unfold slice_to. fold N. replace (i - 1) with N by lia.
      pose proof (len_nonneg (Actions trigger)). fold N in H.
      rewrite (proj2 (Z.leb_le 0 N)), Z.leb_refl by done. cbn.
      unfold N, len. by rewrite Nat2Z.id, firstn_all. }
    assert (Hfrom : slice_from (Actions trigger) i = Panic msgSliceBounds).
    { unfold slice_from. fold N. rewrite (proj2 (Z.leb_gt i N)) by lia.
      by rewrite andb_false_r. }
    split; [done|]. split; [done|].
    rewrite (delAction_fetched _ _ _ _ Hfetch). cbn zeta. fold i N.
    assert (Hg : (U64.sub i 1 >? U64.wrap N) = false).
    { apply not_true_iff_false. rewrite Hguard. lia. }
    rewrite Hg, Hidx. unfold bind at 1, lift at 1. rewrite Hto.
    unfold bind at 1, lift at 1.
    replace (U64.add (i - 1) 1) with i; [by rewrite Hfrom|].
    unfold U64.add. replace (i - 1 + 1) with i by lia. by rewrite U64_wrap_small.
  - apply sentBy_app. by eapply getTrigger_sent.
Qed.


(** C10: with [index = 0] the zero-based index wraps to [2^64 - 1], which
    exceeds every slice length; once the trigger is fetched [delAction]
    returns the invalid-index error and the lookup is the only request sent.
    The argument check [IsValid] refuses such an index beforehand. *)
Theorem delAction_index_zero (c : Command triggerRemoveActionArgs) (s s1 : state W)
    (trigger : fullTrigger) :
  index (Data c) = 0 ->
  _getTrigger Execute (rm_base (Data c)) s = (Ret (trigger, None), s1) ->
  representable (Actions trigger) ->
  U64.sub (index (Data c)) 1 = 2 ^ 64 - 1
  /\ len (Actions trigger) < U64.sub (index (Data c)) 1
  /\ delAction Execute c s
     = (Ret (Some (InvalidActionIndex 0 (len (Actions trigger)))), s1)
  /\ sentBy s s1 = [fetchRequest (rm_base (Data c))]
  /\ triggerRemoveActionArgs_IsValid (Data c) = false.
Proof.
  intros H0 Hfetch Hrep. rewrite H0.
  pose proof (representable_in_range _ Hrep) as HNr.
  assert (HN : U64.wrap (len (Actions trigger)) = len (Actions trigger))
    by (by apply U64_wrap_small).
  assert (Hlt : len (Actions trigger) < U64.sub 0 1).
  { rewrite U64_sub_zero_one. unfold representable, Int.max, U64.modulus in *. lia. }
  split; [reflexivity|]. split; [done|]. split; [|split].
  - rewrite (delAction_fetched _ _ _ _ Hfetch). cbn zeta. rewrite H0, HN.
    by rewrite (proj2 (Z.gtb_gt _ _)) by lia.
  - apply sentBy_app. by eapply getTrigger_sent.
  - unfold triggerRemoveActionArgs_IsValid. rewrite H0. apply andb_false_r.
Qed.

(** ** Adding an action *)


(** ** Creating a trigger *)

(** C9: the body that [createTrigger] posts has a release pointer exactly
    when the [releaseWhen] string of the arguments is non-empty; its wire
    form has no [release_when] member when the pointer is nil and carries
    the non-empty string otherwise. *)
Theorem createTrigger_release_when (c : Command createArgs) (s : state W)
    (tag : string) :
  let td := cr_triggerData (Data c) in
  getActionType (cr_data (Data c)) = Ret tag ->
  exists (body : fullTrigger) (r : request) (err : option error) (s' : state W),
    createTrigger Execute c s = (Ret err, s')
    /\ sentBy s s' = [r]
    /\ req_method r = POST
    /\ req_body r = Some body
    /\ (ReleaseWhenPtr (data body) <> None <-> releaseWhen td <> "")
    /\ (ReleaseWhenPtr (data body) = None ->
          wire_member "release_when" (triggerData_wire (data body)) = None)
    /\ (forall v, wire_member "release_when" (triggerData_wire (data body)) = Some v ->
          v = JString (releaseWhen td) /\ releaseWhen td <> "").
Proof.
  intros td Htag.
  set (ptr := if 0 <? len_string (releaseWhen td) then Some (releaseWhen td) else None).
  set (body := newTrigger (TriggerName td) (ProjectId td) (DataExpiry td) (FireWhen td)
                 ptr (Namespace td)
                 [mkTriggerAction tag (cr_minDelay (Data c)) (ArgsOf (cr_data (Data c)))]).
  set (r := ResponseBodyHandler (ResponseBody (Body body
              (DumpResponse (dumpResponse td) (DumpRequest (dumpRequest td)
                 (ProjectToken (ProjectId (data body))
                    (Expect 201 (Client_Post (ApiPath c))))))))).
  destruct (Execute r (world s)) as [resp w] eqn:Hexec.
  assert (Hrun : exists err s',
             createTrigger Execute c s = (Ret err, s') /\ sent s' = sent s ++ [r]).
  { unfold createTrigger, bind at 1, lift at 1. rewrite Htag.
    fold td. fold ptr. fold body. fold r.
    unfold bind at 1, execute. rewrite Hexec.
    destruct (resp_decoded resp); cbn; eexists _, _; split; reflexivity. }
  destruct Hrun as (err & s' & Hrun & Hsent).
  assert (Hptr : ReleaseWhenPtr (data body) = ptr) by reflexivity.
  exists body, r, err, s'. split; [done|]. split; [by apply sentBy_app|].
  split; [done|]. split; [done|].
  rewrite wire_member_release_when, Hptr. unfold ptr.
  destruct (0 <? len_string (releaseWhen td)) eqn:Hlen.
  - apply len_string_pos in Hlen. split; [|split].
    + split; done.
    + done.
    + intros v [= <-]. done.
  - apply len_string_pos_false in Hlen. split; [|split].
    + split; [done | by intros []].
    + done.
    + done.
Qed.

End ClientProperties.

(** * The properties at work on the example server *)

Lemma fixture_representable : representable (Actions Fixture.trigger3).
Proof. unfold representable, Int.max, len. simpl length. lia. Defined.

(** Index 5 of 3 actions is refused; index 4 passes the guard and panics. *)
Lemma delAction_boundary_witness :
  delAction Fixture.Execute (Fixture.remove 5) Fixture.start
    = (Ret (Some (InvalidActionIndex 5 3)),
       (_getTrigger Fixture.Execute Fixture.byId Fixture.start).2)
  /\ (delAction Fixture.Execute (Fixture.remove 4) Fixture.start).1
     = Panic msgSliceBounds.
Proof.
  split.
  - assert (U64.in_range 5) as Hr by (unfold U64.in_range, U64.modulus; lia).
    assert (1 <= 5) as Hp by lia.
    destruct (delAction_boundary _ Fixture.Execute (Fixture.remove 5) Fixture.start _
                Fixture.trigger3 eq_refl fixture_representable Hr Hp)
      as (_ & H & _).
    apply H. by vm_compute.
  - assert (U64.in_range 4) as Hr by (unfold U64.in_range, U64.modulus; lia).
    assert (1 <= 4) as Hp by lia.
    destruct (delAction_boundary _ Fixture.Execute (Fixture.remove 4) Fixture.start _
                Fixture.trigger3 eq_refl fixture_representable Hr Hp)
      as (_ & _ & H & _).
    destruct (H eq_refl) as (_ & _ & ->). reflexivity.
Defined.



(** A kind of the registry and a name outside it. *)
Lemma registry_round_trip_witness :
  (exists v, getActionArgs "mqtt" = Ret v /\ getActionType v = Ret "mqtt")
  /\ getActionArgs "ftp" = Panic msgUnknownAction
  /\ getActionType (OtherArgs "*ftpActionData" true) = Panic msgUnknownAction.
Proof.
  destruct registry_round_trip as (Hin & Hout & Hother & _).
  split; [|split].
  - apply Hin. unfold actionKinds. do 2 apply list_elem_of_further.
    apply list_elem_of_here.
  - apply Hout. unfold actionKinds. rewrite !not_elem_of_cons.
    repeat split; try discriminate. apply not_elem_of_nil.
  - apply Hother. right. by exists "*ftpActionData", true.
Defined.

(** Both lookup keys set: the id wins; no id: the name is sent. *)
Lemma lookup_key_precedence_witness :
  (exists r,
      sentBy Fixture.start (_getTrigger Fixture.Execute Fixture.byId Fixture.start).2 = [r]
      /\ req_path r = "/v1/triggers/5" /\ req_params r = [])
  /\ (exists r,
      sentBy Fixture.start (_getTrigger Fixture.Execute Fixture.byName Fixture.start).2 = [r]
      /\ req_path r = "/v1/triggers" /\ req_params r = [("name", "t1")]).
Proof.
  split.
  - destruct (lookup_key_precedence _ Fixture.Execute Fixture.byId Fixture.start)
      as (rget & rdel & _ & _ & Hget & _ & _ & _ & Hid & _).
    exists rget. split; [exact Hget|].
    apply Hid; [by vm_compute | by left].
  - destruct (lookup_key_precedence _ Fixture.Execute Fixture.byName Fixture.start)
      as (rget & rdel & _ & _ & Hget & _ & _ & _ & _ & Hname).
    exists rget. split; [exact Hget|].
    apply Hname; [reflexivity | by left].
Defined.

(** Creating with and without a release condition. *)
Lemma createTrigger_release_when_witness :
  (exists body r err s',
      createTrigger Fixture.Execute (Fixture.create "") Fixture.start = (Ret err, s')
      /\ sentBy Fixture.start s' = [r] /\ req_body r = Some body
      /\ wire_member "release_when" (triggerData_wire (data body)) = None)
  /\ (exists body r err s',
      createTrigger Fixture.Execute (Fixture.create "{{temp}}<22") Fixture.start
        = (Ret err, s')
      /\ sentBy Fixture.start s' = [r] /\ req_body r = Some body
      /\ ReleaseWhenPtr (data body) <> None).
Proof.
  split.
  - destruct (createTrigger_release_when _ Fixture.Execute (Fixture.create "")
                Fixture.start "http" eq_refl)
      as (body & r & err & s' & Hrun & Hsent & _ & Hbody & Hiff & Hnil & _).
    exists body, r, err, s'. repeat split; try assumption.
    apply Hnil. destruct (ReleaseWhenPtr (data body)) eqn:Hp; [|reflexivity].
    exfalso. apply (proj1 Hiff); [discriminate | reflexivity].
  - destruct (createTrigger_release_when _ Fixture.Execute
                (Fixture.create "{{temp}}<22") Fixture.start "http" eq_refl)
      as (body & r & err & s' & Hrun & Hsent & _ & Hbody & Hiff & _).
    exists body, r, err, s'. repeat split; try assumption.
    apply (proj2 Hiff). cbn. discriminate.
Defined.

(** Index 0 on the three-action trigger. *)
Lemma delAction_index_zero_witness :
  delAction Fixture.Execute (Fixture.remove 0) Fixture.start
    = (Ret (Some (InvalidActionIndex 0 3)),
       (_getTrigger Fixture.Execute Fixture.byId Fixture.start).2)
  /\ sentBy Fixture.start (delAction Fixture.Execute (Fixture.remove 0) Fixture.start).2
     = [fetchRequest Fixture.byId].
Proof.
  destruct (delAction_index_zero _ Fixture.Execute (Fixture.remove 0) Fixture.start _
              Fixture.trigger3 eq_refl eq_refl fixture_representable)
    as (_ & _ & Hrun & Hsent & _).
  split; [exact Hrun|]. rewrite Hrun. exact Hsent.
Defined.

(** * Further properties of the trigger commands *)

Section MutationProperties.

Variable W : Type.
Variable Execute : request -> W -> response * W.

(** X1: arguments that pass [triggerBaseArgs.IsValid] always resolve to a
    lookup that names a trigger: the request carries the project id, which is
    positive, and either goes to the id path with no parameter or to the base
    path with a non-empty [name]. *)
Theorem valid_lookup_names_a_trigger (a : triggerBaseArgs) (s : state W) :
  triggerBaseArgs_IsValid a = true ->
  exists r : request,
    sentBy s (_getTrigger Execute a s).2 = [r]
    /\ req_projectToken r = Some (projectId a) /\ 0 < projectId a
    /\ ((0 < triggerId a
         /\ req_path r = "/v1/triggers/" +:+ FormatUint (triggerId a)
         /\ req_params r = [])
        \/ (req_path r = "/v1/triggers"
            /\ triggerName a <> ""
            /\ req_params r = [("name", triggerName a)])).
Proof.
  unfold triggerBaseArgs_IsValid. rewrite andb_true_iff, orb_true_iff.
  rewrite len_string_pos, !Z.ltb_lt. intros [Hp Hkey].
  exists (fetchRequest a). split; [apply sentBy_app; by rewrite getTrigger_run|].
  split; [done|]. split; [done|].
  unfold fetchRequest, lookupPath, lookupParams; cbn.
  destruct (Z.ltb_spec 0 (triggerId a)) as [Hid|Hid].
  - left. done.
  - right. destruct Hkey as [Hid'|Hname]; [lia | done].
Qed.

(** X2: when the lookup fails, [delAction] and [addAction] return the
    lookup's error in the state the lookup left: nothing is replaced and
    nothing is printed. *)
Theorem fetch_error_is_returned (a : triggerBaseArgs) (s s1 : state W)
    (t : fullTrigger) (e : error) :
  _getTrigger Execute a s = (Ret (t, Some e), s1) ->
  (forall p i,
      delAction Execute (mkCommand p (mkTriggerRemoveActionArgs a i)) s
      = (Ret (Some e), s1))
  /\ (forall p delay d,
      addAction Execute (mkCommand p (mkAddActionArgs a delay d)) s
      = (Ret (Some e), s1))
  /\ sentBy s s1 = [fetchRequest a]
  /\ stdout s1 = stdout s.
Proof.
  intros Hfetch. split; [|split; [|split]].
  - intros p i. unfold delAction, bind. cbn. by rewrite Hfetch.
  - intros p delay d. unfold addAction, bind. cbn. by rewrite Hfetch.
  - apply sentBy_app. by eapply getTrigger_sent.
  - rewrite getTrigger_run in Hfetch. cbn in Hfetch. by injection Hfetch as _ _ <-.
Qed.

(** Removing position [i - 1] with the two slice expressions of [delAction]. *)
Lemma delAction_slices (acts : list triggerAction) (i : Z) :
  representable acts -> 1 <= i <= len acts ->
  U64.sub i 1 = i - 1
  /\ (U64.sub i 1 >? U64.wrap (len acts)) = false
  /\ slice_to acts (i - 1) = Ret (take (Z.to_nat (i - 1)) acts)
  /\ slice_from acts (U64.add (i - 1) 1) = Ret (drop (S (Z.to_nat (i - 1))) acts).
Proof.
  intros Hrep Hi.
  pose proof (representable_in_range _ Hrep) as HNr.
  assert (Hir : U64.in_range i) by (unfold U64.in_range in *; lia).
  assert (Hidx : U64.sub i 1 = i - 1) by (apply U64_sub_no_borrow; [done | lia]).
  assert (Hadd : U64.add (i - 1) 1 = i).
  { unfold U64.add. replace (i - 1 + 1) with i by lia. by apply U64_wrap_small. }
  split; [done|]. split; [|split].
  - rewrite Hidx, U64_wrap_small, Z.gtb_ltb by done. apply Z.ltb_ge. lia.
  - unfold slice_to.
    by rewrite (proj2 (Z.leb_le 0 (i - 1))), (proj2 (Z.leb_le (i - 1) (len acts))) by lia.
  - rewrite Hadd. unfold slice_from.
    rewrite (proj2 (Z.leb_le 0 i)), (proj2 (Z.leb_le i (len acts))) by lia. cbn.
    do 2 f_equal. lia.
Qed.

(** [delAction] with an index in range, step by step. *)
Lemma delAction_in_range_run (c : Command triggerRemoveActionArgs) (s s1 : state W)
    (trigger : fullTrigger) :
  let i := index (Data c) in
  let t' := set_Actions trigger (delete (Z.to_nat (i - 1)) (Actions trigger)) in
  let r := Execute (replaceRequest t') (world s1) in
  _getTrigger Execute (rm_base (Data c)) s = (Ret (trigger, None), s1) ->
  representable (Actions trigger) ->
  1 <= i <= len (Actions trigger) ->
  delAction Execute c s =
    (Ret (asError (resp_err r.1)),
     mkState r.2 (sent s1 ++ [replaceRequest t'])
       (stdout s1 ++ (if resp_err r.1 is None
                      then ["Action successfully removed from trigger."] else []))).
Proof.
  intros i t' r Hfetch Hrep Hi.
  destruct (delAction_slices _ _ Hrep Hi) as (Hidx & Hg & Hto & Hfrom).
  rewrite (delAction_fetched _ _ _ _ _ _ Hfetch). cbn zeta. fold i.
  rewrite Hg, Hidx. unfold bind at 1, lift at 1. rewrite Hto.
  unfold bind at 1, lift at 1. rewrite Hfrom, <- delete_take_drop.
  fold t'. unfold bind at 1. rewrite putTrigger_run. fold r.
  destruct r as [resp w]; cbn. destruct (resp_err resp); cbn; [|done].
  by rewrite app_nil_r.
Qed.

(** X3: a removal in range reports what the replace answered: the error
    returned is the client's, the client state is the one the replace left,
    and the line "Action successfully removed from trigger." is printed
    exactly when there was no error. *)
Theorem delAction_reports_replace (c : Command triggerRemoveActionArgs)
    (s s1 : state W) (trigger : fullTrigger) :
  let i := index (Data c) in
  let t' := set_Actions trigger (delete (Z.to_nat (i - 1)) (Actions trigger)) in
  let r := Execute (replaceRequest t') (world s1) in
  _getTrigger Execute (rm_base (Data c)) s = (Ret (trigger, None), s1) ->
  representable (Actions trigger) ->
  1 <= i <= len (Actions trigger) ->
  exists s2 : state W,
    delAction Execute c s = (Ret (ClientError <$> resp_err r.1), s2)
    /\ world s2 = r.2
    /\ (resp_err r.1 = None ->
          stdout s2 = stdout s1 ++ ["Action successfully removed from trigger."])
    /\ (resp_err r.1 <> None -> stdout s2 = stdout s1).
Proof.
  intros i t' r Hfetch Hrep Hi.
  pose proof (delAction_in_range_run c s s1 trigger Hfetch Hrep Hi) as Hrun.
  cbn zeta in Hrun. fold i in Hrun. fold t' in Hrun. fold r in Hrun.
  clearbody r. destruct r as [resp w]. cbn in *.
  eexists. split; [exact Hrun|]. cbn. split; [done|].
  destruct (resp_err resp); split; intros; try done. by rewrite app_nil_r.
Qed.



(** [addAction] once the trigger is fetched and the tag of the data known. *)
Lemma addAction_run (c : Command addActionArgs) (s s1 : state W)
    (trigger : fullTrigger) (tag : string) :
  let args := Data c in
  let t' := set_Actions trigger
              (Actions trigger
               ++ [mkTriggerAction tag (add_minDelay args) (ArgsOf (add_data args))]) in
  let r := Execute (replaceRequest t') (world s1) in
  _getTrigger Execute (add_base args) s = (Ret (trigger, None), s1) ->
  getActionType (add_data args) = Ret tag ->
  addAction Execute c s =
    (Ret (asError (resp_err r.1)),
     mkState r.2 (sent s1 ++ [replaceRequest t'])
       (stdout s1 ++ (if resp_err r.1 is None
                      then ["Action successfully added to trigger."] else []))).
Proof.
  intros args t' r Hfetch Htag.
  unfold addAction, bind at 1. fold args. rewrite Hfetch.
  unfold bind at 1, lift at 1. rewrite Htag.
  unfold bind at 1. fold t'. rewrite putTrigger_run. fold r.
  destruct r as [resp w]; cbn. destruct (resp_err resp); cbn; [|done].
  by rewrite app_nil_r.
Qed.

Lemma set_Actions_id (t : fullTrigger) : set_Actions t (Actions t) = t.
Proof. by destruct t. Qed.



(** X6: a removal that looks the trigger up by name still replaces it by
    id: the replace goes to the id path of the fetched trigger, is authorised
    with the fetched trigger's project id (not the one of the arguments) and
    carries the fetched trigger's data unchanged. *)
Theorem delAction_by_name_replaces_by_id (c : Command triggerRemoveActionArgs)
    (s s1 : state W) (trigger : fullTrigger) :
  let args := rm_base (Data c) in
  triggerId args = 0 ->
  _getTrigger Execute args s = (Ret (trigger, None), s1) ->
  representable (Actions trigger) ->
  1 <= index (Data c) <= len (Actions trigger) ->
  exists (r1 r2 : request) (body : fullTrigger),
    sentBy s (delAction Execute c s).2 = [r1; r2]
    /\ req_method r1 = GET /\ req_path r1 = "/v1/triggers"
    /\ req_params r1 = [("name", triggerName args)]
    /\ req_projectToken r1 = Some (projectId args)
    /\ req_method r2 = PUT
    /\ req_path r2 = "/v1/triggers/" +:+ FormatUint (TriggerId (data trigger))
    /\ req_params r2 = []
    /\ req_expect r2 = Some 200
    /\ req_projectToken r2 = Some (ProjectId (data trigger))
    /\ req_body r2 = Some body /\ data body = data trigger.
Proof.
  intros args Hid Hfetch Hrep Hi.
  eexists _, _, _. split.
  - apply sentBy_app. rewrite (delAction_in_range_run _ _ _ _ Hfetch Hrep Hi). cbn.
    rewrite (getTrigger_sent _ _ _ _ _ _ Hfetch). by rewrite <- app_assoc.
  - unfold fetchRequest, lookupPath, lookupParams. fold args. rewrite Hid. cbn.
    repeat split; reflexivity.
Qed.

(** X7: [addAction] reports what the replace answered, and writes nothing
    when the action data has no registered type: the error returned is the
    client's and "Action successfully added to trigger." is printed exactly
    when there was none; for data of an unregistered type the call panics in
    the state the lookup left. *)
Theorem addAction_reports_replace (c : Command addActionArgs) (s s1 : state W)
    (trigger : fullTrigger) :
  let args := Data c in
  _getTrigger Execute (add_base args) s = (Ret (trigger, None), s1) ->
  (forall tag, getActionType (add_data args) = Ret tag ->
     let t' := set_Actions trigger
                 (Actions trigger
                  ++ [mkTriggerAction tag (add_minDelay args) (ArgsOf (add_data args))]) in
     let r := Execute (replaceRequest t') (world s1) in
     exists s2 : state W,
       addAction Execute c s = (Ret (ClientError <$> resp_err r.1), s2)
       /\ world s2 = r.2
       /\ (resp_err r.1 = None ->
             stdout s2 = stdout s1 ++ ["Action successfully added to trigger."])
       /\ (resp_err r.1 <> None -> stdout s2 = stdout s1))
  /\ (forall msg, getActionType (add_data args) = Panic msg ->
        addAction Execute c s = (Panic msg, s1)).
Proof.
  intros args Hfetch. split.
  - intros tag Htag t' r.
    pose proof (addAction_run c s s1 trigger tag Hfetch Htag) as Hrun.
    cbn zeta in Hrun. fold args in Hrun. fold t' in Hrun. fold r in Hrun.
    clearbody r. destruct r as [resp w]. cbn in *.
    eexists. split; [exact Hrun|]. cbn. split; [done|].
    destruct (resp_err resp); split; intros; try done. by rewrite app_nil_r.
  - intros msg Hmsg. unfold addAction, bind at 1. fold args. rewrite Hfetch.
    unfold bind at 1, lift at 1. by rewrite Hmsg.
Qed.

End MutationProperties.

Section DisplayProperties.

Variable W : Type.
Variable Execute : request -> W -> response * W.
Variable ExecuteList : request -> W -> listResponse * W.
Variable formatArgs : anyArgs -> string.

Lemma printed_nil (s : state W) : printed s [] = s.
Proof. unfold printed. rewrite app_nil_r. by destruct s. Qed.

Lemma printed_app (s : state W) (l1 l2 : list string) :
  printed (printed s l1) l2 = printed s (l1 ++ l2).
Proof. unfold printed. cbn. by rewrite app_assoc. Qed.

Lemma Println_printed (line : string) (s : state W) :
  Println W line s = (Ret tt, printed s [line]).
Proof. reflexivity. Qed.

Lemma int_wrap_small (z : Z) : - 2 ^ 63 <= z <= Int.max -> int_wrap z = z.
Proof.
  unfold Int.max, int_wrap. intros H. rewrite Z.mod_small; lia.
Qed.

Lemma FormatInt_nonneg (z : Z) : 0 <= z -> FormatInt z = FormatUint z.
Proof. intros H. unfold FormatInt. by rewrite (proj2 (Z.ltb_ge z 0)). Qed.

Lemma mjoin_cons {A} (x : list A) (l : list (list A)) : mjoin (x :: l) = x ++ mjoin l.
Proof. reflexivity. Qed.

(** One turn of the loop with the counter at [k + 1]. *)
Lemma printAction_lines (k : nat) (a : triggerAction) (s : state W) :
  printAction formatArgs (Z.of_nat (S k)) a s
  = (Ret tt, printed s (actionLines formatArgs k a)).
Proof.
  unfold printAction, actionLines.
  rewrite FormatInt_nonneg by lia.
  destruct k as [|k].
  - change (Z.of_nat 1) with 1.
    unfold bind, Println, ret, printed. cbn.
    by rewrite <- !app_assoc.
  - replace (Z.of_nat (S (S k)) =? 1) with false by (symmetry; apply Z.eqb_neq; lia).
    unfold bind, Println, ret, printed. cbn [negb world sent stdout].
    by rewrite <- !app_assoc.
Qed.

(** The loop invariant of [Print]: with the counter at [k + 1] and no
    overflow ahead, the remaining actions are printed as the blocks numbered
    [k + 1], [k + 2], ... *)
Lemma printActions_lines (acts : list triggerAction) :
  forall (k : nat) (i : Z) (s : state W),
    (acts <> [] -> i = Z.of_nat (S k)) ->
    Z.of_nat k + len acts <= Int.max ->
    printActions formatArgs i acts s
    = (Ret tt, printed s (mjoin (imap (fun j => actionLines formatArgs (k + j)) acts))).
Proof.
  induction acts as [|a rest IH]; intros k i s Hi Hbound.
  - cbn. by rewrite printed_nil.
  - rewrite (Hi ltac:(done)). cbn [printActions]. unfold bind at 1.
    rewrite printAction_lines.
    assert (Hlen : len (a :: rest) = len rest + 1) by (unfold len; cbn; lia).
    rewrite Hlen in Hbound. pose proof (len_nonneg rest) as Hr0.
    rewrite (IH (S k)).
    + rewrite printed_app. do 2 f_equal.
      rewrite imap_cons, mjoin_cons, Nat.add_0_r. do 2 f_equal.
      apply imap_ext. intros j x _. unfold compose.
      by replace (k + S j)%nat with (S k + j)%nat by lia.
    + intros Hne.
      assert (1 <= len rest) by (destruct rest; [done | unfold len; cbn; lia]).
      rewrite int_wrap_small by (unfold Int.max in *; lia). lia.
    + lia.
Qed.

(** X8: [Print] writes the header, then one block per action in list order,
    the block of the action at position [k] starting with the number
    [k + 1] (blocks after the first are preceded by an empty line), then an
    empty line; it changes nothing else. *)
Theorem fullTrigger_Print_lines (t : fullTrigger) (s : state W) :
  representable (Actions t) ->
  fullTrigger_Print formatArgs t s = (Ret tt, printed s (triggerLines formatArgs t)).
Proof.
  intros Hrep. unfold fullTrigger_Print, triggerLines, headerLines.
  unfold bind at 1. rewrite Println_printed.
  unfold bind at 1. rewrite Println_printed.
  unfold bind at 1. rewrite Println_printed.
  unfold bind at 1. rewrite Println_printed.
  unfold bind at 1. rewrite Println_printed.
  unfold bind at 1. rewrite Println_printed.
  rewrite !printed_app.
  unfold bind at 1.
  destruct (ReleaseWhenPtr (data t)) as [r|].
  - rewrite Println_printed, printed_app.
    unfold bind at 1. rewrite Println_printed, printed_app.
    unfold bind at 1. rewrite (printActions_lines _ 0%nat) by (done || (cbn; done)).
    rewrite Println_printed, !printed_app. do 2 f_equal.
  - unfold ret at 1.
    unfold bind at 1. rewrite Println_printed, printed_app.
    unfold bind at 1. rewrite (printActions_lines _ 0%nat) by (done || (cbn; done)).
    rewrite Println_printed, !printed_app. do 2 f_equal.
Qed.


(** X10: [getTrigger] sends the one lookup, returns its error, and prints
    the fetched trigger exactly when there was no error. *)
Theorem getTrigger_prints_fetched (c : Command triggerBaseArgs) (s : state W) :
  let r := Execute (fetchRequest (Data c)) (world s) in
  let t := default zeroFullTrigger (resp_decoded r.1) in
  representable (Actions t) ->
  getTrigger Execute formatArgs c s
  = (Ret (ClientError <$> resp_err r.1),
     mkState r.2 (sent s ++ [fetchRequest (Data c)])
       (stdout s ++ (if resp_err r.1 is None then triggerLines formatArgs t else []))).
Proof.
  intros r t Hrep. subst r t.
  unfold getTrigger, bind at 1. rewrite getTrigger_run. cbn zeta.
  destruct (resp_err (Execute (fetchRequest (Data c)) (world s)).1) as [e|]; cbn.
  - unfold bind, ret. cbn. by rewrite app_nil_r.
  - unfold bind. by rewrite fullTrigger_Print_lines.
Qed.

Lemma printAll_lines (ts : list fullTrigger) :
  forall s : state W,
    Forall (fun t => representable (Actions t)) ts ->
    printAll formatArgs ts s = (Ret tt, printed s (mjoin (triggerLines formatArgs <$> ts))).
Proof.
  induction ts as [|t rest IH]; intros s Hall.
  - cbn. by rewrite printed_nil.
  - inversion_clear Hall as [|? ? Ht Hrest]. cbn [printAll]. unfold bind.
    rewrite fullTrigger_Print_lines by done. rewrite IH by done.
    by rewrite printed_app.
Qed.

(** X11: [getAllTriggers] sends one read of the command's path for the
    project, with no parameter, and prints the triggers the client decoded
    one after the other in the order received, each as [Print] writes it;
    it returns the client's error. *)
Theorem getAllTriggers_prints_in_order (c : Command triggerListArgs) (s : state W) :
  let req := mkRequest GET (ApiPath c) [] (Some 200) (Some (list_projectId (Data c)))
               false false None true true in
  let r := ExecuteList req (world s) in
  let ts := default [] (list_decoded r.1) in
  Forall (fun t => representable (Actions t)) ts ->
  getAllTriggers ExecuteList formatArgs c s
  = (Ret (ClientError <$> list_err r.1),
     mkState r.2 (sent s ++ [req])
       (stdout s ++ mjoin (triggerLines formatArgs <$> ts))).
Proof.
  intros req r ts Hall. unfold getAllTriggers.
  change (ResponseBodyHandler _) with req. fold r.
  unfold ts in *. destruct r as [resp w]. cbn [fst snd] in *.
  unfold bind. destruct (list_decoded resp) as [l|]; cbn [default] in *.
  - by rewrite printAll_lines.
  - cbn. by rewrite app_nil_r.
Qed.

(** X12: [deleteTrigger] sends one delete expecting 204, returns the
    client's error and prints "Device successfully deleted" exactly when
    there was none; arguments that are valid without a trigger name (the
    delete command binds no flag to it) always delete by id. *)
Theorem deleteTrigger_outcome (c : Command triggerBaseArgs) (s : state W) :
  let a := Data c in
  exists req : request,
    let r := Execute req (world s) in
    deleteTrigger Execute c s
    = (Ret (ClientError <$> resp_err r.1),
       mkState r.2 (sent s ++ [req])
         (stdout s ++ (if resp_err r.1 is None
                       then ["Device successfully deleted"] else [])))
    /\ req_method req = DELETE /\ req_expect req = Some 204
    /\ req_projectToken req = Some (projectId a) /\ req_body req = None
    /\ (triggerDeleteArgs_IsValid a = true -> triggerName a = "" ->
          req_path req = "/v1/triggers/" +:+ FormatUint (triggerId a)
          /\ req_params req = []).
Proof.
  intros a. exists (deleteRequest a). cbn zeta. split; [|repeat split].
  - unfold deleteTrigger, bind, execute, ret. fold a.
    assert (ProjectToken (projectId a) (Expect 204
              (if triggerId a <=? 0
               then Param "name" (triggerName a) (Client_Delete (getApiPath a))
               else Client_Delete (getApiPath a))) = deleteRequest a) as ->.
    { rewrite getApiPath_eq, leb_zero_ltb. unfold deleteRequest, lookupParams.
      by destruct (0 <? triggerId a). }
    destruct (Execute (deleteRequest a) (world s)) as [resp w]; cbn.
    destruct (resp_err resp); cbn; [by rewrite app_nil_r | done].
  - revert H H0. unfold triggerDeleteArgs_IsValid, triggerBaseArgs_IsValid.
    intros Hv Hn. rewrite Hn in Hv. cbn in Hv. rewrite orb_false_r in Hv.
    apply andb_true_iff in Hv as [_ Hid]. cbn. unfold lookupPath. by rewrite Hid.
  - revert H H0. unfold triggerDeleteArgs_IsValid, triggerBaseArgs_IsValid.
    intros Hv Hn. rewrite Hn in Hv. cbn in Hv. rewrite orb_false_r in Hv.
    apply andb_true_iff in Hv as [_ Hid]. cbn. unfold lookupParams. by rewrite Hid.
Qed.


(** The one request of [createTrigger], for action data of a registered type. *)
Lemma createTrigger_sent (c : Command createArgs) (s : state W) (tag : string) :
  let args := Data c in
  let td := cr_triggerData args in
  getActionType (cr_data args) = Ret tag ->
  sent (createTrigger Execute c s).2
  = sent s
    ++ [mkRequest POST (ApiPath c) [] (Some 201) (Some (ProjectId td))
          (dumpRequest td) (dumpResponse td)
          (Some (mkFullTrigger
                   (mkTriggerData 0 (ProjectId td) (Namespace td) (TriggerName td)
                      (DataExpiry td) (FireWhen td)
                      (if 0 <? len_string (releaseWhen td)
                       then Some (releaseWhen td) else None)
                      "" false false)
                   [mkTriggerAction tag (cr_minDelay args) (ArgsOf (cr_data args))]))
          true true].
Proof.
  intros args td Htag.
  unfold createTrigger, bind at 1, lift at 1. fold args. rewrite Htag. fold td.
  unfold bind at 1, execute.
  match goal with |- context [Execute ?r (world s)] =>
    destruct (Execute r (world s)) as [resp w] end.
  destruct (resp_decoded resp); reflexivity.
Qed.


(** X14: arguments that pass [createArgs.IsValid] post a body that is itself
    a valid trigger carrying valid action data, with a positive project id
    as authorisation. *)
Theorem valid_create_posts_valid_trigger (c : Command createArgs) (s : state W)
    (tag : string) :
  let args := Data c in
  createArgs_IsValid args = Ret true ->
  getActionType (cr_data args) = Ret tag ->
  exists (r : request) (body : fullTrigger) (a : triggerAction) (p : Z),
    sentBy s (createTrigger Execute c s).2 = [r]
    /\ req_body r = Some body
    /\ triggerData_IsValid (data body) = true
    /\ Actions body = [a] /\ Args a = ArgsOf (cr_data args)
    /\ actionArgs_Valid (cr_data args) = Ret true
    /\ 0 <= MinDelay a
    /\ req_projectToken r = Some p /\ 0 < p.
Proof.
  intros args Hvalid Htag. unfold createArgs_IsValid in Hvalid.
  destruct (triggerData_IsValid (cr_triggerData args) && (0 <=? cr_minDelay args))
    eqn:Hcond; [|discriminate].
  apply andb_true_iff in Hcond as [Htd Hdelay]. apply Z.leb_le in Hdelay.
  eexists _, _, _, _. split.
  - apply sentBy_app. by apply createTrigger_sent.
  - cbn. repeat split; try done.
    unfold triggerData_IsValid in Htd. apply andb_true_iff in Htd as [Htd _].
    apply andb_true_iff in Htd as [Htd _]. apply andb_true_iff in Htd as [Htd _].
    by apply Z.ltb_lt.
Qed.

End DisplayProperties.

(** ** Wire form *)


(** ** Building the commands *)

(** Defining flags whose names are new and distinct adds them in order. *)
Lemma FlagSet_Vars_NoDup (l : list Flag) :
  forall fs : FlagSet,
    NoDup (flagNames fs ++ (flag_name <$> l)) ->
    FlagSet_Vars l fs = Ret (mkFlagSet (fs_name fs) (formal fs ++ l)).
Proof.
  induction l as [|f l IH]; intros fs Hnd.
  - cbn. rewrite app_nil_r. by destruct fs.
  - cbn [FlagSet_Vars]. unfold FlagSet_Var.
    rewrite fmap_cons in Hnd. apply NoDup_app in Hnd as (Hfs & Hdisj & Hl).
    rewrite bool_decide_eq_false_2.
    + rewrite IH; cbn.
      * by rewrite <- app_assoc.
      * unfold flagNames. cbn. rewrite fmap_app, <- app_assoc. cbn.
        apply NoDup_app. split; [done|]. split; [|done].
        intros x Hx. by apply Hdisj.
    + intros Hin. apply (Hdisj _ Hin). apply list_elem_of_here.
Qed.

Lemma NewFlagSet_Vars (name : string) (l : list Flag) :
  NoDup (flag_name <$> l) ->
  FlagSet_Vars l (NewFlagSet name) = Ret (mkFlagSet name l).
Proof. intros H. by rewrite FlagSet_Vars_NoDup. Qed.

Lemma map_get_flagSetNames : map_get flagSetNames keyTrigger = "iobeam trigger".
Proof. unfold map_get, flagSetNames. by rewrite lookup_insert_eq. Qed.

Lemma actionTypes_keys : (map_to_list actionTypes).*1 = ["sms"; "mqtt"; "email"; "http"].
Proof. by vm_compute. Qed.

Ltac each_kind H :=
  unfold actionKinds in H; rewrite !elem_of_cons, elem_of_nil in H;
  destruct H as [->|[->|[->|[->|[]]]]].

Ltac names_distinct := apply (bool_decide_unpack _); by vm_compute.

Lemma newCreateTypeCommand_kind (activeProject : Z) (k : string) :
  k ∈ actionKinds ->
  newCreateTypeCommand activeProject k
  = Ret (mkLeafCommand k (descCreateType (map_get actionTypes k)) RunCreateTrigger
           (mkFlagSet ("iobeam trigger create " +:+ k)
              (createCommonFlags activeProject ++ kindFlags k))
           (mkCommand "/v1/triggers"
              (mkCreateArgs
                 (mkTriggerData 0 activeProject "input" "" 0 "" None "" false false)
                 0 (kindDefaults k)))).
Proof.
  intros Hk. each_kind Hk;
    unfold newCreateTypeCommand; cbn [getActionArgs String.eqb Ascii.eqb Bool.eqb];
    unfold newGenericTriggerCommand, createArgs_setCommonFlags, newFlagSetTrigger;
    rewrite map_get_flagSetNames, map_get_baseApiPath;
    (rewrite NewFlagSet_Vars by names_distinct);
    cbn [cr_data zeroCreateArgs]; unfold actionArgs_setFlags;
    cbn [emailActionData.setFlags emailActionData.To];
    (rewrite FlagSet_Vars_NoDup by names_distinct); reflexivity.
Qed.

Lemma newAddActionTypeCommand_kind (activeProject : Z) (k : string) :
  k ∈ actionKinds ->
  newAddActionTypeCommand activeProject k
  = Ret (mkLeafCommand k (descAddActionType (map_get actionTypes k)) RunAddAction
           (mkFlagSet ("iobeam trigger add-action " +:+ k)
              (addActionCommonFlags activeProject ++ kindFlags k))
           (mkCommand ""
              (mkAddActionArgs (mkTriggerBaseArgs activeProject 0 "") 0
                 (kindDefaults k)))).
Proof.
  intros Hk. each_kind Hk;
    unfold newAddActionTypeCommand; cbn [getActionArgs String.eqb Ascii.eqb Bool.eqb];
    unfold newGenericAddActionTriggerCommand, addActionArgs_setCommonFlags,
      newFlagSetTrigger;
    rewrite map_get_flagSetNames;
    (rewrite NewFlagSet_Vars by names_distinct);
    cbn [add_data zeroAddActionArgs]; unfold actionArgs_setFlags;
    cbn [emailActionData.setFlags emailActionData.To];
    (rewrite FlagSet_Vars_NoDup by names_distinct); reflexivity.
Qed.

(** X16: for each of the four kinds the create and the add-action
    sub-command are built without a panic (no unknown kind, no flag defined
    twice); the command carries data whose type tag is its own kind, its
    flag names are pairwise distinct, and as built, before any flag is
    parsed, its arguments are not valid.  The add-action command defines no
    [triggerId] flag and leaves the trigger id at 0. *)
Theorem action_commands_build (activeProject : Z) (k : string) :
  k ∈ actionKinds ->
  exists (lc : LeafCommand createArgs) (la : LeafCommand addActionArgs),
    newCreateTypeCommand activeProject k = Ret lc
    /\ newAddActionTypeCommand activeProject k = Ret la
    /\ Name lc = k /\ Name la = k
    /\ getActionType (cr_data (Data (Cmd lc))) = Ret k
    /\ getActionType (add_data (Data (Cmd la))) = Ret k
    /\ NoDup (flagNames (Flags lc)) /\ NoDup (flagNames (Flags la))
    /\ createArgs_IsValid (Data (Cmd lc)) = Ret false
    /\ addActionArgs_IsValid (Data (Cmd la)) = Ret false
    /\ ("triggerId" ∉ flagNames (Flags la))
    /\ triggerId (add_base (Data (Cmd la))) = 0.
Proof.
  intros Hk. eexists _, _.
  split; [by apply newCreateTypeCommand_kind|].
  split; [by apply newAddActionTypeCommand_kind|].
  cbn [Name Cmd Data Flags cr_data add_data add_base triggerId].
  split; [done|]. split; [done|].
  assert (Hinvalid : forall d : actionArgs,
             createArgs_IsValid
               (mkCreateArgs
                  (mkTriggerData 0 activeProject "input" "" 0 "" None "" false false) 0 d)
             = Ret false).
  { intros d. unfold createArgs_IsValid, triggerData_IsValid. cbn.
    by rewrite andb_false_r. }
  assert (Hinvalid' : forall d : actionArgs,
             addActionArgs_IsValid
               (mkAddActionArgs (mkTriggerBaseArgs activeProject 0 "") 0 d)
             = Ret false).
  { intros d. unfold addActionArgs_IsValid, triggerBaseArgs_IsValid. cbn.
    by rewrite andb_false_r. }
  rewrite Hinvalid, Hinvalid'. unfold flagNames. cbn [formal].
  each_kind Hk; cbn [kindDefaults kindFlags String.eqb Ascii.eqb Bool.eqb getActionType];
    (repeat split; try done); try names_distinct;
    rewrite fmap_app; cbn; apply (bool_decide_unpack _); by vm_compute.
Qed.

(** The loop of [newMuxOnActionTypeCommand] when no constructor panics. *)
Lemma muxEntries_ok {D} (fn : string -> result (LeafCommand D)) (keys : list string) :
  forall subs : gmap string (LeafCommand D),
    (forall k, k ∈ keys -> exists l, fn k = Ret l) ->
    exists m,
      muxEntries fn keys subs = Ret m
      /\ forall k,
           m !! k = if decide (k ∈ keys)
                    then match fn k with Ret l => Some l | Panic _ => None end
                    else subs !! k.
Proof.
  induction keys as [|t rest IH]; intros subs Hok.
  - exists subs. split; [done|]. intros k.
    by rewrite decide_False by apply not_elem_of_nil.
  - destruct (Hok t) as [c Hc]; [apply list_elem_of_here|].
    cbn [muxEntries]. rewrite Hc.
    destruct (IH (<[t := c]> subs)) as (m & Hm & Hlook).
    { intros k Hk. apply Hok. by apply list_elem_of_further. }
    exists m. split; [done|]. intros k. rewrite Hlook.
    destruct (decide (k ∈ rest)) as [Hin|Hnin].
    + by rewrite decide_True by (by apply list_elem_of_further).
    + destruct (decide (k = t)) as [->|Hne].
      * rewrite decide_True by apply list_elem_of_here.
        by rewrite lookup_insert_eq, Hc.
      * rewrite decide_False by (rewrite elem_of_cons; tauto).
        by rewrite lookup_insert_ne.
Qed.

Lemma newMux_ok {D} (action usage : string) (fn : string -> result (LeafCommand D)) :
  (forall k, k ∈ actionKinds -> exists l, fn k = Ret l) ->
  exists m,
    newMuxOnActionTypeCommand action usage fn = Ret m
    /\ mux_Name m = action
    /\ forall k,
         SubCommands m !! k
         = if decide (k ∈ actionKinds)
           then match fn k with Ret l => Some l | Panic _ => None end
           else None.
Proof.
  intros Hok. unfold newMuxOnActionTypeCommand. rewrite actionTypes_keys.
  assert (Hperm : forall k, k ∈ ["sms"; "mqtt"; "email"; "http"] <-> k ∈ actionKinds).
  { intros k. unfold actionKinds. rewrite !elem_of_cons, !elem_of_nil. tauto. }
  destruct (muxEntries_ok fn ["sms"; "mqtt"; "email"; "http"] ∅) as (m & Hm & Hlook).
  { intros k Hk. apply Hok. by apply Hperm. }
  rewrite Hm. eexists. split; [done|]. split; [done|]. cbn.
  intros k. rewrite Hlook.
  destruct (decide (k ∈ actionKinds)) as [Hin|Hnin].
  - by rewrite decide_True by (by apply Hperm).
  - rewrite decide_False by (by rewrite Hperm). apply lookup_empty.
Qed.

(** X17: the whole [trigger] command tree is built without a panic, for
    every active project: the create and add-action commands have one
    sub-command per action kind and no other, each the command its
    constructor builds for that kind; the get, delete, list and
    remove-action commands define pairwise distinct flags, and the delete
    command defines no [name] flag. *)
Theorem trigger_command_tree_builds (activeProject : Z) :
  exists tc : TriggersCommand,
    NewTriggersCommand activeProject = Ret tc
    /\ (forall k, is_Some (SubCommands (sub_create tc) !! k) <-> k ∈ actionKinds)
    /\ (forall k, is_Some (SubCommands (sub_addAction tc) !! k) <-> k ∈ actionKinds)
    /\ (forall k l, SubCommands (sub_create tc) !! k = Some l ->
          newCreateTypeCommand activeProject k = Ret l)
    /\ (forall k l, SubCommands (sub_addAction tc) !! k = Some l ->
          newAddActionTypeCommand activeProject k = Ret l)
    /\ flagNames (Flags (sub_get tc)) = ["projectId"; "id"; "name"]
    /\ flagNames (Flags (sub_delete tc)) = ["projectId"; "id"]
    /\ flagNames (Flags (sub_list tc)) = ["projectId"]
    /\ flagNames (Flags (sub_removeAction tc))
       = ["projectId"; "triggerId"; "triggerName"; "num"].
Proof.
  destruct (newMux_ok "create" "Create a new trigger with an action."
              (newCreateTypeCommand activeProject)) as (mc & Hmc & _ & Hlc).
  { intros k Hk. eexists. by apply newCreateTypeCommand_kind. }
  destruct (newMux_ok "add-action" "Add an action to a trigger."
              (newAddActionTypeCommand activeProject)) as (ma & Hma & _ & Hla).
  { intros k Hk. eexists. by apply newAddActionTypeCommand_kind. }
  unfold NewTriggersCommand, newCreateTriggerCommand, newAddActionTriggerCommand.
  rewrite Hma, Hmc.
  unfold newDeleteTriggerCommand, newGetTriggerCommand, newListTriggersCommand,
    newRemoveActionTriggerCommand, newFlagSetTrigger.
  rewrite map_get_flagSetNames, map_get_baseApiPath.
  do 4 (rewrite NewFlagSet_Vars by names_distinct).
  eexists. split; [reflexivity|].
  cbn [sub_create sub_addAction sub_get sub_delete sub_list sub_removeAction Flags].
  split; [|split; [|split; [|split]]].
  - intros k. rewrite Hlc. destruct (decide (k ∈ actionKinds)) as [Hin|Hnin].
    + rewrite (newCreateTypeCommand_kind _ _ Hin). split; [done | by eexists].
    + split; [intros [? [=]] | intros Hin; elim (Hnin Hin)].
  - intros k. rewrite Hla. destruct (decide (k ∈ actionKinds)) as [Hin|Hnin].
    + rewrite (newAddActionTypeCommand_kind _ _ Hin). split; [done | by eexists].
    + split; [intros [? [=]] | intros Hin; elim (Hnin Hin)].
  - intros k l. rewrite Hlc. destruct (decide (k ∈ actionKinds)); [|done].
    destruct (newCreateTypeCommand activeProject k); [by intros [= ->] | done].
  - intros k l. rewrite Hla. destruct (decide (k ∈ actionKinds)); [|done].
    destruct (newAddActionTypeCommand activeProject k); [by intros [= ->] | done].
  - repeat split; reflexivity.
Qed.

(** X18: the action data of a freshly built create command is not valid for
    any kind, so at least one kind-specific flag must be given; for the HTTP
    kind the content type defaults to [text/plain], so that giving [-url]
    alone yields valid data exactly when the URL is non-empty. *)
Theorem action_data_needs_flags (activeProject : Z) (k : string)
    (lc : LeafCommand createArgs) :
  k ∈ actionKinds ->
  newCreateTypeCommand activeProject k = Ret lc ->
  actionArgs_Valid (cr_data (Data (Cmd lc))) = Ret false
  /\ (k = "http" ->
        forall u : string,
        exists d d' : httpActionData.t,
          cr_data (Data (Cmd lc)) = HttpArgs d
          /\ httpActionData.parseFlag "url" u d = Some d'
          /\ httpActionData.ContentType d' = "text/plain"
          /\ (httpActionData.Valid d' = true <-> u <> "")).
Proof.
  intros Hk Hlc. rewrite (newCreateTypeCommand_kind _ _ Hk) in Hlc.
  injection Hlc as <-. cbn [Cmd Data cr_data]. split.
  - each_kind Hk; reflexivity.
  - intros -> u. eexists _, _. split; [reflexivity|]. split; [reflexivity|].
    split; [reflexivity|]. unfold httpActionData.Valid. cbn.
    rewrite andb_true_r. apply len_string_pos.
Qed.

(** * The further properties at work on the example server *)


(** A lookup by name with a valid name. *)
Lemma valid_lookup_names_a_trigger_witness :
  exists r,
    sentBy Fixture.start (_getTrigger Fixture.Execute Fixture.byName Fixture.start).2 = [r]
    /\ req_projectToken r = Some 1
    /\ req_path r = "/v1/triggers" /\ req_params r = [("name", "t1")].
Proof.
  destruct (valid_lookup_names_a_trigger _ Fixture.Execute Fixture.byName
              Fixture.start eq_refl)
    as (r & Hsent & Htok & _ & [(Hid & _)|(Hpath & _ & Hparams)]).
  - exfalso. revert Hid. by vm_compute.
  - exists r. repeat split; assumption.
Defined.

(** Removing from a server that holds no trigger. *)
Lemma fetch_error_is_returned_witness :
  delAction Fixture.Execute (Fixture.remove 1) Fixture2.empty
  = (Ret (Some (ClientError "404 Not Found")),
     (_getTrigger Fixture.Execute Fixture.byId Fixture2.empty).2)
  /\ stdout (_getTrigger Fixture.Execute Fixture.byId Fixture2.empty).2 = [].
Proof.
  destruct (fetch_error_is_returned _ Fixture.Execute Fixture.byId Fixture2.empty _
              zeroFullTrigger (ClientError "404 Not Found") eq_refl)
    as (Hdel & _ & _ & Hout).
  split; [apply (Hdel "" 1) | exact Hout].
Defined.

(** Removing action 2 of 3 prints the confirmation. *)
Lemma delAction_reports_replace_witness :
  exists s2,
    delAction Fixture.Execute (Fixture.remove 2) Fixture.start = (Ret None, s2)
    /\ stdout s2 = ["Action successfully removed from trigger."].
Proof.
  assert (1 <= 2 <= 3) as Hi by lia.
  destruct (delAction_reports_replace _ Fixture.Execute (Fixture.remove 2)
              Fixture.start _ Fixture.trigger3 eq_refl fixture_representable Hi)
    as (s2 & Hrun & _ & Hok & _).
  exists s2. split; [exact Hrun | exact (Hok eq_refl)].
Defined.



(** Removing by name from trigger 5 of project 1. *)
Lemma delAction_by_name_replaces_by_id_witness :
  exists r1 r2,
    sentBy Fixture.start
      (delAction Fixture.Execute (Fixture2.removeByName 2) Fixture.start).2 = [r1; r2]
    /\ req_path r1 = "/v1/triggers" /\ req_params r1 = [("name", "t1")]
    /\ req_path r2 = "/v1/triggers/5" /\ req_projectToken r2 = Some 1.
Proof.
  assert (1 <= 2 <= 3) as Hi by lia.
  destruct (delAction_by_name_replaces_by_id _ Fixture.Execute (Fixture2.removeByName 2)
              Fixture.start _ Fixture.trigger3 eq_refl eq_refl fixture_representable Hi)
    as (r1 & r2 & body & Hsent & _ & Hp1 & Hq1 & _ & _ & Hp2 & _ & _ & Ht2 & _).
  exists r1, r2. repeat split; assumption.
Defined.

(** Adding an HTTP action prints the confirmation. *)
Lemma addAction_reports_replace_witness :
  exists s2,
    addAction Fixture.Execute Fixture.add Fixture.start = (Ret None, s2)
    /\ stdout s2 = ["Action successfully added to trigger."].
Proof.
  destruct (addAction_reports_replace _ Fixture.Execute Fixture.add Fixture.start _
              Fixture.trigger3 eq_refl) as (Hok & _).
  destruct (Hok "http" eq_refl) as (s2 & Hrun & _ & Hline & _).
  exists s2. split; [exact Hrun | exact (Hline eq_refl)].
Defined.

(** Printing the three-action trigger. *)
Lemma fullTrigger_Print_lines_witness :
  stdout (fullTrigger_Print Fixture2.formatArgs Fixture.trigger3 Fixture.start).2
  = ["Trigger ID   : 5"; "Trigger name : t1"; "Project ID   : 1";
     "Data expiry  : 0"; "Namespace    : input"; "Fire when : {{temp}}>25";
     "Actions:";
     "  1) Action type: http"; "     Min delay  : 10"; "     Args: {}"; "";
     "  2) Action type: http"; "     Min delay  : 20"; "     Args: {}"; "";
     "  3) Action type: http"; "     Min delay  : 30"; "     Args: {}"; ""].
Proof.
  rewrite (fullTrigger_Print_lines _ Fixture2.formatArgs Fixture.trigger3 Fixture.start
             fixture_representable).
  reflexivity.
Defined.


(** Getting the trigger prints its nineteen lines. *)
Lemma getTrigger_prints_fetched_witness :
  (getTrigger Fixture.Execute Fixture2.formatArgs Fixture2.get Fixture.start).1 = Ret None
  /\ length (stdout (getTrigger Fixture.Execute Fixture2.formatArgs Fixture2.get
                       Fixture.start).2) = 19%nat.
Proof.
  rewrite (getTrigger_prints_fetched _ Fixture.Execute Fixture2.formatArgs Fixture2.get
             Fixture.start fixture_representable).
  split; reflexivity.
Defined.

(** Listing the one stored trigger. *)
Lemma getAllTriggers_prints_in_order_witness :
  stdout (getAllTriggers Fixture2.ExecuteList Fixture2.formatArgs Fixture2.list
            Fixture.start).2
  = triggerLines Fixture2.formatArgs Fixture.trigger3.
Proof.
  rewrite (getAllTriggers_prints_in_order _ Fixture2.ExecuteList Fixture2.formatArgs
             Fixture2.list Fixture.start).
  - reflexivity.
  - repeat constructor. exact fixture_representable.
Defined.

(** Deleting trigger 5 by id. *)
Lemma deleteTrigger_outcome_witness :
  exists req,
    sent (deleteTrigger Fixture.Execute Fixture2.get Fixture.start).2 = [req]
    /\ req_path req = "/v1/triggers/5" /\ req_params req = [].
Proof.
  destruct (deleteTrigger_outcome _ Fixture.Execute
              (mkCommand "" (mkTriggerBaseArgs 1 5 "")) Fixture.start)
    as (req & Hrun & _ & _ & _ & _ & Hid).
  destruct (Hid eq_refl eq_refl) as [Hpath Hparams].
  exists req. split; [|split; assumption].
  assert (Hsame : deleteTrigger Fixture.Execute Fixture2.get Fixture.start
                  = deleteTrigger Fixture.Execute
                      (mkCommand "" (mkTriggerBaseArgs 1 5 "")) Fixture.start)
    by reflexivity.
  rewrite Hsame, Hrun. reflexivity.
Defined.


(** The example create command is valid and posts a valid trigger. *)
Lemma valid_create_posts_valid_trigger_witness :
  exists r body,
    sentBy Fixture.start
      (createTrigger Fixture.Execute (Fixture.create "") Fixture.start).2 = [r]
    /\ req_body r = Some body /\ triggerData_IsValid (data body) = true.
Proof.
  destruct (valid_create_posts_valid_trigger _ Fixture.Execute (Fixture.create "")
              Fixture.start "http" eq_refl eq_refl)
    as (r & body & a & p & Hsent & Hbody & Hvalid & _).
  exists r, body. repeat split; assumption.
Defined.

(** The HTTP sub-commands for active project 7. *)
Lemma action_commands_build_witness :
  exists lc la,
    newCreateTypeCommand 7 "http" = Ret lc /\ newAddActionTypeCommand 7 "http" = Ret la
    /\ getActionType (cr_data (Data (Cmd lc))) = Ret "http"
    /\ createArgs_IsValid (Data (Cmd lc)) = Ret false.
Proof.
  assert ("http" ∈ actionKinds) as Hk
    by (unfold actionKinds; apply list_elem_of_further, list_elem_of_here).
  destruct (action_commands_build 7 "http" Hk)
    as (lc & la & Hc & Ha & _ & _ & Htag & _ & _ & _ & Hinv & _).
  exists lc, la. repeat split; assumption.
Defined.

(** The command tree for active project 7 has an [sms] create command and no
    [ftp] one. *)
Lemma trigger_command_tree_builds_witness :
  exists tc,
    NewTriggersCommand 7 = Ret tc
    /\ is_Some (SubCommands (sub_create tc) !! "sms")
    /\ SubCommands (sub_create tc) !! "ftp" = None.
Proof.
  destruct (trigger_command_tree_builds 7) as (tc & Htc & Hc & _).
  exists tc. split; [exact Htc|]. split.
  - apply Hc. unfold actionKinds. do 3 apply list_elem_of_further. apply list_elem_of_here.
  - apply eq_None_not_Some. intros Hs. apply Hc in Hs. revert Hs.
    unfold actionKinds. rewrite !elem_of_cons, elem_of_nil.
    intros [H|[H|[H|[H|[]]]]]; discriminate H.
Defined.

(** The HTTP create command with [-url http://x]. *)
Lemma action_data_needs_flags_witness :
  exists lc d',
    newCreateTypeCommand 7 "http" = Ret lc
    /\ actionArgs_Valid (cr_data (Data (Cmd lc))) = Ret false
    /\ httpActionData.Valid d' = true
    /\ httpActionData.URL d' = "http://x".
Proof.
  assert ("http" ∈ actionKinds) as Hk
    by (unfold actionKinds; apply list_elem_of_further, list_elem_of_here).
  destruct (newCreateTypeCommand 7 "http") as [lc|msg] eqn:Hlc; [|discriminate Hlc].
  destruct (action_data_needs_flags 7 "http" lc Hk Hlc) as (Hinv & Hurl).
  destruct (Hurl eq_refl "http://x") as (d & d' & Hd & Hparse & _ & Hvalid).
  exists lc, d'. split; [reflexivity|]. split; [exact Hinv|]. split.
  - apply Hvalid. discriminate.
  - injection Hlc as <-. injection Hd as <-. injection Hparse as <-. reflexivity.
Defined.
